(** * An LC-3 virtual machine: shallow embedding and verified properties

    The development follows the C++ sources class by class:
    [CPU] (register file, memory, condition flags, image loader),
    [OS] (host console), [MemoryIO] (memory bus with the memory-mapped
    keyboard), [ArithmeticLogicUnit] (opcode handlers), [Trap] (trap
    service routines) and [VirtualMachine] (fetch / decode / dispatch).

    A [uint16_t] is a [Z] in [0, 65536); every place where the C++ code
    converts an [int] back to [uint16_t] is written out as [wrap16].  The
    two arrays [registers] and [memory] are total maps from indices to
    words.  The host console is a record of what the outside world will
    answer (key polls, bytes on standard input) and of what the program
    has written so far. *)

From Stdlib Require Import Ascii String ZArith List Lia Bool.
Import ListNotations.
Local Open Scope Z_scope.

(** ** Machine integers *)

(** Conversion of an [int] to [uint16_t]. *)
Definition wrap16 (x : Z) : Z := x mod 65536.

(** Conversion of an [int] to [char] (a signed 8-bit type for the
    compiler this Windows-only program is written for). *)
Definition to_char (x : Z) : Z :=
  let y := x mod 256 in if y <? 128 then y else y - 256.

(** Conversion of an [int] to [unsigned char], as [putc] does. *)
Definition to_uchar (x : Z) : Z := x mod 256.

Definition is_u16 (x : Z) : Prop := 0 <= x < 65536.

(** A 16-bit word read as a two's complement number. *)
Definition signed16 (x : Z) : Z := if x <? 32768 then x else x - 65536.

(** The low [w] bits of a word read as a [w]-bit two's complement number. *)
Definition signed_field (w x : Z) : Z :=
  let y := x mod 2 ^ w in if y <? 2 ^ (w - 1) then y else y - 2 ^ w.

(** [mask w] has exactly the low [w] bits set. *)
Definition mask (w : Z) : Z := Z.ones w.

(** Arrays indexed by integers; [upd a i v] is [a[i] = v]. *)
Definition upd (a : Z -> Z) (i v : Z) : Z -> Z :=
  fun j => if j =? i then v else a j.

Definition byte_val (c : ascii) : Z := Z.of_N (N_of_ascii c).

(** ** Constants of CPU.h, MemoryIO.h, ArithmeticLogicUnit.h, Trap.h *)

Definition MEMORY_MAX : Z := Z.shiftl 1 16.
Definition REGISTER_COUNT : Z := 10.

Definition FL_POSITIVE : Z := Z.shiftl 1 0.
Definition FL_ZERO : Z := Z.shiftl 1 1.
Definition FL_NEGATIVE : Z := Z.shiftl 1 2.

Definition R_0 : Z := 0.
Definition R_7 : Z := 7.
Definition R_PC : Z := 8.
Definition R_COND : Z := 9.

Definition PC_START : Z := 0x3000.

Definition MR_KBSR : Z := 0xFE00.
Definition MR_KBDR : Z := 0xFE02.

Definition OP_BR : Z := 0.
Definition OP_ADD : Z := 1.
Definition OP_LD : Z := 2.
Definition OP_ST : Z := 3.
Definition OP_JSR : Z := 4.
Definition OP_AND : Z := 5.
Definition OP_LDR : Z := 6.
Definition OP_STR : Z := 7.
Definition OP_RTI : Z := 8.
Definition OP_NOT : Z := 9.
Definition OP_LDI : Z := 10.
Definition OP_STI : Z := 11.
Definition OP_JMP : Z := 12.
Definition OP_RES : Z := 13.
Definition OP_LEA : Z := 14.
Definition OP_TRAP : Z := 15.

Definition TRAP_GETC : Z := 0x20.
Definition TRAP_OUT : Z := 0x21.
Definition TRAP_PUTS : Z := 0x22.
Definition TRAP_IN : Z := 0x23.
Definition TRAP_PUTSP : Z := 0x24.
Definition TRAP_HALT : Z := 0x25.

(** ** The host console (OS.cpp and the C standard streams) *)

(** What reaches standard output: bytes written by [putc], and the
    points at which [fflush] was called. *)
Inductive event : Type :=
| Putc (b : Z)
| Fflush.

(** [keyhits] holds the answers the console will give to the coming key
    polls, [stdin] the bytes still to be read from standard input, and
    [stdout] what was written so far, oldest first. *)
Record Host : Type := mkHost {
  keyhits : list bool;
  stdin : list ascii;
  stdout : list event
}.

Definition EOF : Z := -1.

Module OS.

(** [OS::CheckKey]: a wait on the input handle and [_kbhit]; both are
    answered by the outside world.  The result is a [uint16_t]. *)
Definition CheckKey (h : Host) : Z * Host :=
  match keyhits h with
  | [] => (0, h)
  | k :: ks => (Z.b2z k, mkHost ks (stdin h) (stdout h))
  end.

End OS.

(** [getchar]: the next byte as an [unsigned char] converted to [int], or
    [EOF] at the end of the input. *)
Definition getchar (h : Host) : Z * Host :=
  match stdin h with
  | [] => (EOF, h)
  | c :: cs => (byte_val c, mkHost (keyhits h) cs (stdout h))
  end.

(** [putc(c, stdout)] writes [c] converted to [unsigned char]. *)
Definition putc (c : Z) (h : Host) : Host :=
  mkHost (keyhits h) (stdin h) (stdout h ++ [Putc (to_uchar c)]).

Definition fflush (h : Host) : Host :=
  mkHost (keyhits h) (stdin h) (stdout h ++ [Fflush]).

(** [printf] of a string without conversions, and [puts]. *)
Definition put_chars (cs : list ascii) (h : Host) : Host :=
  fold_left (fun h' c => putc (byte_val c) h') cs h.

Definition printf (s : string) (h : Host) : Host :=
  put_chars (list_ascii_of_string s) h.

Definition puts (s : string) (h : Host) : Host :=
  putc 10 (put_chars (list_ascii_of_string s) h).

(** ** The machine: the [CPU] object together with the console *)

Record Machine : Type := mkMachine {
  registers : Z -> Z;
  memory : Z -> Z;
  running : Z;
  os : Host
}.

Definition set_register (i v : Z) (s : Machine) : Machine :=
  mkMachine (upd (registers s) i v) (memory s) (running s) (os s).

Definition set_memory (a v : Z) (s : Machine) : Machine :=
  mkMachine (registers s) (upd (memory s) a v) (running s) (os s).

Definition set_os (h : Host) (s : Machine) : Machine :=
  mkMachine (registers s) (memory s) (running s) h.

Definition set_running (r : Z) (s : Machine) : Machine :=
  mkMachine (registers s) (memory s) r (os s).

(** ** MemoryIO.cpp: the memory bus *)

Module MemoryIO.

Definition Read (memoryAddress : Z) (s : Machine) : Z * Machine :=
  let s' :=
    if memoryAddress =? MR_KBSR then
      let (key, h1) := OS.CheckKey (os s) in
      if negb (key =? 0) then
        let s1 := set_memory MR_KBSR (wrap16 (Z.shiftl 1 15)) (set_os h1 s) in
        let (c, h2) := getchar (os s1) in
        set_memory MR_KBDR (wrap16 c) (set_os h2 s1)
      else
        set_memory MR_KBSR 0 (set_os h1 s)
    else s in
  (memory s' memoryAddress, s').

Definition Write (address value : Z) (s : Machine) : Machine :=
  set_memory address value s.

End MemoryIO.

(** ** ArithmeticLogicUnit.cpp: the two pure member functions

    They use no member of the class and are needed by the image loader
    as well, so they come first. *)

(** [SignExtend]: the [int] expression [immNumber | (0xFFFF << len)] is
    converted to [uint16_t] by the [return]. *)
Definition SignExtend (immNumber immNumberLength : Z) : Z :=
  let signBit := Z.land (Z.shiftr immNumber (immNumberLength - 1)) 0x0001 in
  if negb (signBit =? 0) then
    wrap16 (Z.lor immNumber (Z.shiftl 0xFFFF immNumberLength))
  else immNumber.

Definition Swap16 (number : Z) : Z :=
  wrap16 (Z.lor (Z.shiftl number 8) (Z.shiftr number 8)).

(** ** CPU.cpp: construction, condition flags, image loader *)

(** How the host lays out a [uint16_t] in memory. *)
Inductive byte_order : Type := LittleEndian | BigEndian.

(** The value of a [uint16_t] object whose two bytes, in address order,
    are [b0] and [b1]. *)
Definition word_of_bytes (bo : byte_order) (b0 b1 : ascii) : Z :=
  match bo with
  | LittleEndian => byte_val b0 + 256 * byte_val b1
  | BigEndian => 256 * byte_val b0 + byte_val b1
  end.

(** The value of a [uint16_t] object that held [old] after its first
    byte, in address order, has been overwritten with [b0]. *)
Definition partial_word (bo : byte_order) (b0 : ascii) (old : Z) : Z :=
  match bo with
  | LittleEndian => byte_val b0 + 256 * (old / 256)
  | BigEndian => 256 * byte_val b0 + old mod 256
  end.

(** [fread(p, sizeof(uint16_t), count, file)] on the array [mem]: the
    bytes of the stream are copied to [p], [p+1], ... until [count]
    elements are read or the stream ends.  The result is the array and
    the number of whole elements read.  When the stream ends inside an
    element, the byte that was read has been copied all the same, over
    the first byte of the next cell, and that element is not counted. *)
Fixpoint fread (bo : byte_order) (count : nat) (file : list ascii)
    (mem : Z -> Z) (p : Z) : option ((Z -> Z) * nat) :=
  match count with
  | O => Some (mem, O)
  | S n =>
      match file with
      | [] => Some (mem, O)
      | [b0] => Some (upd mem p (partial_word bo b0 (mem p)), O)
      | b0 :: b1 :: rest =>
          match fread bo n rest (upd mem p (word_of_bytes bo b0 b1)) (p + 1) with
          | Some (mem', k) => Some (mem', S k)
          | None => None
          end
      end
  end.

Module CPU.

(** [CPU::CPU()]: only the condition register and the program counter
    are initialised; [registers0] and [memory0] are whatever the
    uninitialised arrays hold. *)
Definition init (registers0 memory0 : Z -> Z) (h : Host) : Machine :=
  set_register R_PC PC_START
    (set_register R_COND FL_ZERO (mkMachine registers0 memory0 1 h)).

Definition UpdateFlags (DR : Z) (s : Machine) : Machine :=
  if registers s DR =? 0 then
    set_register R_COND FL_ZERO s
  else if Z.shiftr (registers s DR) 15 =? 1 then
    set_register R_COND FL_NEGATIVE s
  else
    set_register R_COND FL_POSITIVE s.

(** The loop [while (read-- > 0) { *p = Swap16( *p); ++p; }]. *)
Fixpoint swap_words (read : nat) (mem : Z -> Z) (p : Z) : Z -> Z :=
  match read with
  | O => mem
  | S n => swap_words n (upd mem p (Swap16 (mem p))) (p + 1)
  end.

(** [CPU::ReadImageFile] on the array [mem], for a host of byte order
    [bo] and a stream holding [file].  [None]: the stream is too short
    for the origin, which the code then uses uninitialised. *)
Definition ReadImageFile (bo : byte_order) (file : list ascii)
    (mem : Z -> Z) : option (Z -> Z) :=
  match file with
  | b0 :: b1 :: rest =>
      let origin := Swap16 (word_of_bytes bo b0 b1) in
      let maxRead := wrap16 (MEMORY_MAX - origin) in
      let p := origin in
      match fread bo (Z.to_nat maxRead) rest mem p with
      | Some (mem', read) => Some (swap_words read mem' p)
      | None => None
      end
  | _ => None
  end.

(** [CPU::ReadImage] once the file is open: only the memory changes. *)
Definition ReadImage (bo : byte_order) (file : list ascii)
    (s : Machine) : option Machine :=
  match ReadImageFile bo file (memory s) with
  | Some mem' => Some (mkMachine (registers s) mem' (running s) (os s))
  | None => None
  end.

End CPU.

(** ** ArithmeticLogicUnit.cpp: the opcode handlers *)

Module ArithmeticLogicUnit.

Definition ADD (instruction : Z) (s : Machine) : Machine :=
  let DR := Z.land (Z.shiftr instruction 9) 0x0007 in
  let SR1 := Z.land (Z.shiftr instruction 6) 0x0007 in
  let Imm := Z.land (Z.shiftr instruction 5) 0x0001 in
  let s1 :=
    if negb (Imm =? 0) then
      let imm5 := SignExtend (Z.land instruction 0x001F) 5 in
      set_register DR (wrap16 (registers s SR1 + imm5)) s
    else
      let SR2 := Z.land instruction 0x0007 in
      set_register DR (wrap16 (registers s SR1 + registers s SR2)) s in
  CPU.UpdateFlags DR s1.

Definition AND (instruction : Z) (s : Machine) : Machine :=
  let DR := Z.land (Z.shiftr instruction 9) 0x0007 in
  let SR1 := Z.land (Z.shiftr instruction 6) 0x0007 in
  let Imm := Z.land (Z.shiftr instruction 5) 0x0001 in
  let s1 :=
    if negb (Imm =? 0) then
      let imm5 := SignExtend (Z.land instruction 0x001F) 5 in
      set_register DR (wrap16 (Z.land (registers s SR1) imm5)) s
    else
      let SR2 := Z.land instruction 0x0007 in
      set_register DR (wrap16 (Z.land (registers s SR1) (registers s SR2))) s in
  CPU.UpdateFlags DR s1.

Definition NOT (instruction : Z) (s : Machine) : Machine :=
  let DR := Z.land (Z.shiftr instruction 9) 0x0007 in
  let SR1 := Z.land (Z.shiftr instruction 6) 0x0007 in
  let s1 := set_register DR (wrap16 (Z.lnot (registers s SR1))) s in
  CPU.UpdateFlags DR s1.

Definition BR (instruction : Z) (s : Machine) : Machine :=
  let pcOffset := SignExtend (Z.land instruction 0x01FF) 9 in
  let conditionFlag := Z.land (Z.shiftr instruction 9) 0x0007 in
  if negb (Z.land conditionFlag (registers s R_COND) =? 0) then
    set_register R_PC (wrap16 (registers s R_PC + pcOffset)) s
  else s.

Definition JMP (instruction : Z) (s : Machine) : Machine :=
  let SR1 := Z.land (Z.shiftr instruction 6) 0x0007 in
  set_register R_PC (registers s SR1) s.

Definition JSR (instruction : Z) (s : Machine) : Machine :=
  let longFlag := Z.land (Z.shiftr instruction 11) 0x0001 in
  let s1 := set_register R_7 (registers s R_PC) s in
  if negb (longFlag =? 0) then
    let longPCOffset := SignExtend (Z.land instruction 0x07FF) 11 in
    set_register R_PC (wrap16 (registers s1 R_PC + longPCOffset)) s1
  else
    let SR1 := Z.land (Z.shiftr instruction 6) 0x0007 in
    set_register R_PC (registers s1 SR1) s1.

Definition LD (instruction : Z) (s : Machine) : Machine :=
  let DR := Z.land (Z.shiftr instruction 9) 0x0007 in
  let pcOffset := SignExtend (Z.land instruction 0x01FF) 9 in
  let (v, s1) := MemoryIO.Read (wrap16 (registers s R_PC + pcOffset)) s in
  CPU.UpdateFlags DR (set_register DR v s1).

Definition LDR (instruction : Z) (s : Machine) : Machine :=
  let DR := Z.land (Z.shiftr instruction 9) 0x0007 in
  let SR1 := Z.land (Z.shiftr instruction 6) 0x0007 in
  let offset := SignExtend (Z.land instruction 0x003F) 6 in
  let (v, s1) := MemoryIO.Read (wrap16 (registers s SR1 + offset)) s in
  CPU.UpdateFlags DR (set_register DR v s1).

Definition LEA (instruction : Z) (s : Machine) : Machine :=
  let DR := Z.land (Z.shiftr instruction 9) 0x0007 in
  let pcOffset := SignExtend (Z.land instruction 0x01FF) 9 in
  CPU.UpdateFlags DR
    (set_register DR (wrap16 (registers s R_PC + pcOffset)) s).

Definition ST (instruction : Z) (s : Machine) : Machine :=
  let DR := Z.land (Z.shiftr instruction 9) 0x0007 in
  let pcOffset := SignExtend (Z.land instruction 0x01FF) 9 in
  MemoryIO.Write (wrap16 (registers s R_PC + pcOffset)) (registers s DR) s.

Definition STI (instruction : Z) (s : Machine) : Machine :=
  let DR := Z.land (Z.shiftr instruction 9) 0x0007 in
  let pcOffset := SignExtend (Z.land instruction 0x01FF) 9 in
  let (a, s1) := MemoryIO.Read (wrap16 (registers s R_PC + pcOffset)) s in
  MemoryIO.Write a (registers s1 DR) s1.

Definition STR (instruction : Z) (s : Machine) : Machine :=
  let DR := Z.land (Z.shiftr instruction 9) 0x0007 in
  let SR1 := Z.land (Z.shiftr instruction 6) 0x0007 in
  let offset := SignExtend (Z.land instruction 0x003F) 6 in
  MemoryIO.Write (wrap16 (registers s SR1 + offset)) (registers s DR) s.

Definition LDI (instruction : Z) (s : Machine) : Machine :=
  let DR := Z.land (Z.shiftr instruction 9) 0x0007 in
  let pc_offset := SignExtend (Z.land instruction 0x01FF) 9 in
  let (a, s1) := MemoryIO.Read (wrap16 (registers s R_PC + pc_offset)) s in
  let (v, s2) := MemoryIO.Read a s1 in
  CPU.UpdateFlags DR (set_register DR v s2).

End ArithmeticLogicUnit.

(** ** Trap.cpp: the trap service routines *)

Module Trap.

Definition GETC (s : Machine) : Machine :=
  let (c, h) := getchar (os s) in
  CPU.UpdateFlags R_0 (set_register R_0 (wrap16 c) (set_os h s)).

Definition OUTC (s : Machine) : Machine :=
  set_os (fflush (putc (to_char (registers s R_0)) (os s))) s.

(** The loop of [PUTS] with the pointer [c] as an index into [memory].
    [room] counts the words from [c] to the end of the array; with no
    room left [c] points past the array and the read is out of
    bounds ([None]). *)
Fixpoint PUTS_loop (room : nat) (mem : Z -> Z) (c : Z) (h : Host)
    : option Host :=
  match room with
  | O => None
  | S n =>
      if negb (mem c =? 0) then
        PUTS_loop n mem (c + 1) (putc (to_char (mem c)) h)
      else Some h
  end.

Definition PUTS (s : Machine) : option Machine :=
  let c := registers s R_0 in
  match PUTS_loop (Z.to_nat (MEMORY_MAX - c)) (memory s) c (os s) with
  | Some h => Some (set_os (fflush h) s)
  | None => None
  end.

Definition INC (s : Machine) : Machine :=
  let h0 := printf "Enter a character: " (os s) in
  let (g, h1) := getchar h0 in
  let c := to_char g in
  let h2 := fflush (putc c h1) in
  CPU.UpdateFlags R_0 (set_register R_0 (wrap16 c) (set_os h2 s)).

(** The loop of [PUTSP]; [room] as in [PUTS_loop]. *)
Fixpoint PUTSP_loop (room : nat) (mem : Z -> Z) (c : Z) (h : Host)
    : option Host :=
  match room with
  | O => None
  | S n =>
      if negb (mem c =? 0) then
        let char1 := to_char (Z.land (mem c) 0x00FF) in
        let h1 := putc char1 h in
        let char2 := to_char (Z.shiftr (mem c) 8) in
        let h2 := if negb (char2 =? 0) then putc char2 h1 else h1 in
        PUTSP_loop n mem (c + 1) h2
      else Some h
  end.

Definition PUTSP (s : Machine) : option Machine :=
  let c := registers s R_0 in
  match PUTSP_loop (Z.to_nat (MEMORY_MAX - c)) (memory s) c (os s) with
  | Some h => Some (set_os (fflush h) s)
  | None => None
  end.

Definition HALT (s : Machine) : Machine :=
  set_running 0 (set_os (fflush (puts "HALT" (os s))) s).

Definition Proxy (instruction : Z) (s : Machine) : option Machine :=
  let s1 := set_register R_7 (registers s R_PC) s in
  let vector := Z.land instruction 0x00FF in
  if vector =? TRAP_GETC then Some (GETC s1)
  else if vector =? TRAP_OUT then Some (OUTC s1)
  else if vector =? TRAP_PUTS then PUTS s1
  else if vector =? TRAP_IN then Some (INC s1)
  else if vector =? TRAP_PUTSP then PUTSP s1
  else if vector =? TRAP_HALT then Some (HALT s1)
  else Some s1.

End Trap.

(** ** VirtualMachine.cpp: fetch, decode, dispatch *)

Module VirtualMachine.

(** What one turn of the loop body does: the handler returns and the
    loop goes on to test [running], or [abort()] is called, or a trap
    routine reads past the memory array. *)
Inductive outcome : Type :=
| Continue (s : Machine)
| Abort (s : Machine)
| OutOfBounds.

(** [Read(registers[R_PC]++)]: the argument is the old counter, and the
    increment is complete before the body of [Read] runs. *)
Definition fetch (s : Machine) : Z * Machine :=
  let pc := registers s R_PC in
  MemoryIO.Read pc (set_register R_PC (wrap16 (pc + 1)) s).

Definition total (f : Z -> Machine -> Machine)
    : Z -> Machine -> option Machine :=
  fun instruction s => Some (f instruction s).

(** The [switch (operation)]: the handler of each case label, [None]
    for the labels that reach [abort()]. *)
Definition handler (operation : Z)
    : option (Z -> Machine -> option Machine) :=
  if operation =? OP_ADD then Some (total ArithmeticLogicUnit.ADD)
  else if operation =? OP_AND then Some (total ArithmeticLogicUnit.AND)
  else if operation =? OP_NOT then Some (total ArithmeticLogicUnit.NOT)
  else if operation =? OP_BR then Some (total ArithmeticLogicUnit.BR)
  else if operation =? OP_JMP then Some (total ArithmeticLogicUnit.JMP)
  else if operation =? OP_JSR then Some (total ArithmeticLogicUnit.JSR)
  else if operation =? OP_LD then Some (total ArithmeticLogicUnit.LD)
  else if operation =? OP_LDI then Some (total ArithmeticLogicUnit.LDI)
  else if operation =? OP_LDR then Some (total ArithmeticLogicUnit.LDR)
  else if operation =? OP_LEA then Some (total ArithmeticLogicUnit.LEA)
  else if operation =? OP_ST then Some (total ArithmeticLogicUnit.ST)
  else if operation =? OP_STI then Some (total ArithmeticLogicUnit.STI)
  else if operation =? OP_STR then Some (total ArithmeticLogicUnit.STR)
  else if operation =? OP_TRAP then Some Trap.Proxy
  else None.

(** The body of the [while] loop. *)
Definition step (s : Machine) : outcome :=
  let (instruction, s1) := fetch s in
  let operation := Z.shiftr instruction 12 in
  match handler operation with
  | Some h =>
      match h instruction s1 with
      | Some s2 => Continue s2
      | None => OutOfBounds
      end
  | None => Abort s1
  end.

(** How a run ends. *)
Inductive result : Type :=
| Halted (s : Machine)
| Aborted (s : Machine)
| Faulted
| StillRunning (s : Machine).

(** [while (running) { ... }], for at most [fuel] turns. *)
Fixpoint run (fuel : nat) (s : Machine) : result :=
  match fuel with
  | O => StillRunning s
  | S n =>
      if negb (running s =? 0) then
        match step s with
        | Continue s' => run n s'
        | Abort s' => Aborted s'
        | OutOfBounds => Faulted
        end
      else Halted s
  end.

(** The machine states the program goes through: the freshly
    constructed [CPU], image loads, and turns of the loop. *)
Inductive reachable : Machine -> Prop :=
| reach_init : forall registers0 memory0 h,
    (forall r, is_u16 (registers0 r)) ->
    (forall a, is_u16 (memory0 a)) ->
    reachable (CPU.init registers0 memory0 h)
| reach_load : forall bo file s s',
    reachable s ->
    CPU.ReadImage bo file s = Some s' ->
    reachable s'
| reach_step : forall s s',
    reachable s ->
    running s <> 0 ->
    step s = Continue s' ->
    reachable s'.

End VirtualMachine.

(** ** The memory bus as a sequence of operations *)

Inductive bus_op : Type :=
| BusRead (address : Z)
| BusWrite (address value : Z).

Definition bus_step (op : bus_op) (s : Machine) : Machine :=
  match op with
  | BusRead a => snd (MemoryIO.Read a s)
  | BusWrite a v => MemoryIO.Write a v s
  end.

Definition bus_run (ops : list bus_op) (s : Machine) : Machine :=
  fold_left (fun s' op => bus_step op s') ops s.

Definition writes_to (a : Z) (op : bus_op) : bool :=
  match op with
  | BusRead _ => false
  | BusWrite a' _ => a' =? a
  end.

Definition reads_from (a : Z) (op : bus_op) : bool :=
  match op with
  | BusRead a' => a' =? a
  | BusWrite _ _ => false
  end.

(** The statement of C9 as the specification words it: any write, then
    any bus operations that do not write the same address, then a read of
    that address, which is not the status register. *)
Definition write_read_claim : Prop :=
  forall (a v : Z) (ops : list bus_op) (s : Machine),
    a <> MR_KBSR ->
    forallb (fun op => negb (writes_to a op)) ops = true ->
    fst (MemoryIO.Read a (bus_run ops (MemoryIO.Write a v s))) = v.

(** ** The image file format and the statement of C2 *)

(** The byte with value [n]. *)
Definition chr (n : Z) : ascii := ascii_of_N (Z.to_N n).

(** A word of an image file: its two bytes in file order, the high byte
    first. *)
Definition be_word (w : ascii * ascii) : Z :=
  256 * byte_val (fst w) + byte_val (snd w).

(** The bytes of an image file with origin word [o] and data words [ws]. *)
Definition image_file (o : ascii * ascii) (ws : list (ascii * ascii))
    : list ascii :=
  fst o :: snd o :: flat_map (fun w => [fst w; snd w]) ws.

(** Data word [i] of an image. *)
Definition data_word (ws : list (ascii * ascii)) (i : Z) : Z :=
  be_word (nth (Z.to_nat i) ws (zero, zero)).

(** The statement of C2 as the specification words it, on a host of byte
    order [bo]: after a load every data word that has a cell in memory is
    in that cell. *)
Definition image_load_claim_on (bo : byte_order) : Prop :=
  forall (o : ascii * ascii) (ws : list (ascii * ascii)) (mem mem' : Z -> Z),
    CPU.ReadImageFile bo (image_file o ws) mem = Some mem' ->
    forall i, 0 <= i < Z.of_nat (List.length ws) ->
              be_word o + i < MEMORY_MAX ->
              mem' (be_word o + i) = data_word ws i.

(** ... and whatever the byte order of the host. *)
Definition image_load_claim : Prop :=
  forall bo : byte_order, image_load_claim_on bo.

(** ** The flag of a value *)

(** The flag the specification assigns to a newly written value: Z for
    zero, N when bit 15 is one, P otherwise. *)
Definition sign_class (v : Z) : Z :=
  if v =? 0 then 2 else if Z.testbit v 15 then 4 else 1.

(** The destination register field, bits 11..9 of an instruction. *)
Definition DR_field (instruction : Z) : Z :=
  Z.land (Z.shiftr instruction 9) 0x0007.

(** ** Notions used to state the program-counter property *)

(** The instruction the next step fetches, and its opcode. *)
Definition fetched (s : Machine) : Z := fst (VirtualMachine.fetch s).

Definition opcode (s : Machine) : Z := Z.shiftr (fetched s) 12.

(** The condition a [BR] instruction tests: its [nzp] field has a flag
    in common with the condition register. *)
Definition nzp_matches (s : Machine) : bool :=
  negb (Z.land (Z.land (Z.shiftr (fetched s) 9) 0x0007)
               (registers s R_COND) =? 0).

Definition branch_taken (s : Machine) : Prop :=
  opcode s = OP_BR /\ nzp_matches s = true.

Definition branch_not_taken (s : Machine) : Prop :=
  opcode s = OP_BR /\ nzp_matches s = false.

(** The statement of C5 as the specification words it, with the branch
    that is not taken among the exceptions. *)
Definition pc_claim : Prop :=
  forall s s' : Machine,
    VirtualMachine.step s = VirtualMachine.Continue s' ->
    ~ branch_not_taken s ->
    opcode s <> OP_JMP -> opcode s <> OP_JSR -> opcode s <> OP_TRAP ->
    registers s' R_PC = wrap16 (registers s R_PC + 1).

(** ** Output of PUTSP *)

(** The [n] words of memory from address [c] on. *)
Fixpoint words_from (mem : Z -> Z) (c : Z) (n : nat) : list Z :=
  match n with
  | O => []
  | S k => mem c :: words_from mem (c + 1) k
  end.

(** What the specification has PUTSP write for one word: the low byte,
    then the high byte when it is not zero. *)
Definition PUTSP_bytes (w : Z) : list event :=
  Putc (Z.land w 0x00FF)
  :: (if Z.shiftr w 8 =? 0 then [] else [Putc (Z.shiftr w 8)]).

(** ** The invariant of reachable machines *)

(** Registers and memory hold 16-bit words, and the condition register
    holds exactly one flag. *)
Definition machine_ok (s : Machine) : Prop :=
  (forall r, is_u16 (registers s r))
  /\ (forall a, is_u16 (memory s a))
  /\ In (registers s R_COND) [1; 2; 4].

(** ** VirtualMachine.cpp: start-up, before the loop *)

(** What [fopen(path, "rb")] finds: the bytes of the file, or nothing. *)
Definition FileSystem : Type := string -> option (list ascii).

(** [CPU::ReadImage] from the path: 0 when the file cannot be opened,
    1 once [ReadImageFile] has run.  [None] as for [ReadImageFile]. *)
Definition ReadImage_from (fs : FileSystem) (bo : byte_order)
    (imagePath : string) (s : Machine) : option (Z * Machine) :=
  match fs imagePath with
  | None => Some (0, s)
  | Some file =>
      match CPU.ReadImage bo file s with
      | Some s' => Some (1, s')
      | None => None
      end
  end.

(** How the part of [RunVirtualMachine] before the loop ends: with
    [exit(code)], or with the images loaded. *)
Inductive startup : Type :=
| Exited (code : Z) (s : Machine)
| Loaded (s : Machine)
| LoadUndefined.

Definition newline : string := String "010"%char EmptyString.

(** The loop [for (j = 1; j < argc; ++j)] over the image paths. *)
Fixpoint load_images (fs : FileSystem) (bo : byte_order)
    (paths : list string) (s : Machine) : startup :=
  match paths with
  | [] => Loaded s
  | path :: rest =>
      match ReadImage_from fs bo path s with
      | None => LoadUndefined
      | Some (r, s1) =>
          if r =? 0 then
            Exited 1
              (set_os (printf ("failed to load image: " ++ path ++ newline)
                              (os s1)) s1)
          else load_images fs bo rest s1
      end
  end.

(** [RunVirtualMachine] up to the installation of the signal handler;
    [argv] includes the program name. *)
Definition start_up (fs : FileSystem) (bo : byte_order)
    (argv : list string) (s : Machine) : startup :=
  if Z.of_nat (List.length argv) <? 2 then
    Exited 2 (set_os (printf ("lc3 [image-file1] ..." ++ newline) (os s)) s)
  else load_images fs bo (tl argv) s.

(** The bytes [printf] or [puts] write for a string. *)
Definition chars_out (cs : list ascii) : list event :=
  map (fun c => Putc (byte_val c)) cs.

(** What the specification of PUTS writes for one word: its low byte. *)
Definition PUTS_byte (w : Z) : event := Putc (w mod 256).

(** ** Register fields and the register write with flags *)

(** Bits 8..6 and 2..0 of an instruction: the first and the second
    source register, or the base register. *)
Definition SR1_field (instruction : Z) : Z :=
  Z.land (Z.shiftr instruction 6) 0x0007.

Definition SR2_field (instruction : Z) : Z := Z.land instruction 0x0007.

(** [R[DR] <- v] followed by the update of the flags on [v], as one
    change of the register file. *)
Definition write_with_flags (DR v : Z) (s : Machine) : Machine :=
  mkMachine (upd (upd (registers s) DR v) R_COND (sign_class v))
    (memory s) (running s) (os s).

(** ** Images in sequence *)

(** The cells an image with origin word [o] and data words [ws] fills:
    from the origin on, one per data word, up to the end of memory. *)
Definition covers (o : ascii * ascii) (ws : list (ascii * ascii)) (a : Z)
    : bool :=
  (be_word o <=? a)
  && (a <? be_word o + Z.min (Z.of_nat (List.length ws)) (0x10000 - be_word o)).

(** The contents of the files loaded one after the other, in order. *)
Fixpoint load_all (bo : byte_order) (files : list (list ascii))
    (s : Machine) : option Machine :=
  match files with
  | [] => Some s
  | file :: rest =>
      match CPU.ReadImage bo file s with
      | Some s1 => load_all bo rest s1
      | None => None
      end
  end.

(** * Properties *)

(** ** Words and arrays *)

Lemma wrap16_range (x : Z) : is_u16 (wrap16 x).
Proof. unfold is_u16, wrap16. apply Z.mod_pos_bound. lia. Qed.

Lemma wrap16_small (x : Z) : is_u16 x -> wrap16 x = x.
Proof. unfold is_u16, wrap16. intros H. apply Z.mod_small. exact H. Qed.

Lemma upd_same (a : Z -> Z) (i v : Z) : upd a i v i = v.
Proof. unfold upd. rewrite Z.eqb_refl. reflexivity. Qed.

Lemma upd_other (a : Z -> Z) (i j v : Z) : j <> i -> upd a i v j = a j.
Proof.
  intros H. unfold upd. destruct (Z.eqb_spec j i); [contradiction | reflexivity].
Qed.

Lemma byte_val_range (c : ascii) : 0 <= byte_val c < 256.
Proof.
  unfold byte_val. pose proof (N_ascii_bounded c) as H. lia.
Qed.

Lemma land_1_mod (a : Z) : Z.land a 1 = a mod 2.
Proof. change 1 with (Z.ones 1). rewrite Z.land_ones by lia. reflexivity. Qed.

Lemma land_mask_mod (a w : Z) : 0 <= w -> Z.land a (mask w) = a mod 2 ^ w.
Proof. intros H. unfold mask. apply Z.land_ones. exact H. Qed.

Lemma land_7_range (a : Z) : 0 <= Z.land a 7 < 8.
Proof.
  change 7 with (Z.ones 3). rewrite Z.land_ones by lia.
  apply Z.mod_pos_bound. reflexivity.
Qed.

Lemma testbit_high (a n i : Z) :
  0 <= a < 2 ^ n -> 0 <= n <= i -> Z.testbit a i = false.
Proof.
  intros Ha Hn. rewrite <- (Z.mod_small a (2 ^ n)) by exact Ha.
  apply Z.mod_pow2_bits_high. exact Hn.
Qed.

(** ** Sign extension *)

Section SignExtension.

Variables x w : Z.
Hypothesis Hw : 0 < w <= 16.
Hypothesis Hx : 0 <= x < 2 ^ w.

Lemma field_bounds :
  0 < 2 ^ (w - 1) /\ 2 ^ w = 2 * 2 ^ (w - 1) /\ 2 ^ w <= 65536.
Proof.
  split; [apply Z.pow_pos_nonneg; lia |]. split.
  - rewrite <- Z.pow_succ_r by lia. f_equal. lia.
  - change 65536 with (2 ^ 16). apply Z.pow_le_mono_r; lia.
Qed.

Lemma sign_bit_value :
  Z.land (Z.shiftr x (w - 1)) 1 = if x <? 2 ^ (w - 1) then 0 else 1.
Proof.
  destruct field_bounds as [Hpos [Hsplit Hle]].
  rewrite land_1_mod, Z.shiftr_div_pow2 by lia.
  destruct (Z.ltb_spec x (2 ^ (w - 1))) as [Hlt | Hge].
  - rewrite Z.div_small by lia. reflexivity.
  - assert (Hq : x / 2 ^ (w - 1) = 1).
    { symmetry. apply (Z.div_unique x (2 ^ (w - 1)) 1 (x - 2 ^ (w - 1))); lia. }
    rewrite Hq. reflexivity.
Qed.

Lemma high_ones_disjoint : Z.land x (Z.shiftl 0xFFFF w) = 0.
Proof.
  apply Z.bits_inj'. intros i Hi.
  rewrite Z.land_spec, Z.bits_0.
  destruct (Z.ltb_spec i w) as [Hlt | Hge].
  - rewrite Z.shiftl_spec_low by lia. apply andb_false_r.
  - rewrite (testbit_high x w i) by lia. reflexivity.
Qed.

Lemma SignExtend_value :
  SignExtend x w = if x <? 2 ^ (w - 1) then x else x + (65536 - 2 ^ w).
Proof.
  destruct field_bounds as [Hpos [Hsplit Hle]].
  unfold SignExtend. rewrite sign_bit_value.
  destruct (Z.ltb_spec x (2 ^ (w - 1))) as [Hlt | Hge];
    cbn [Z.eqb negb]; [reflexivity |].
  rewrite <- Z.lxor_lor by apply high_ones_disjoint.
  rewrite <- Z.add_nocarry_lxor by apply high_ones_disjoint.
  rewrite Z.shiftl_mul_pow2 by lia.
  unfold wrap16.
  replace (x + 65535 * 2 ^ w) with (x + (65536 - 2 ^ w) + (2 ^ w - 1) * 65536) by lia.
  rewrite Z.mod_add by lia.
  apply Z.mod_small. lia.
Qed.

Lemma SignExtend_range : is_u16 (SignExtend x w).
Proof.
  destruct field_bounds as [Hpos [Hsplit Hle]].
  rewrite SignExtend_value. unfold is_u16.
  destruct (Z.ltb_spec x (2 ^ (w - 1))); lia.
Qed.

Lemma SignExtend_signed16 : signed16 (SignExtend x w) = signed_field w x.
Proof.
  destruct field_bounds as [Hpos [Hsplit Hle]].
  rewrite SignExtend_value. unfold signed16, signed_field.
  rewrite (Z.mod_small x (2 ^ w)) by lia.
  destruct (Z.ltb_spec x (2 ^ (w - 1))) as [Hlt | Hge].
  - destruct (Z.ltb_spec x 32768); lia.
  - destruct (Z.ltb_spec (x + (65536 - 2 ^ w)) 32768); lia.
Qed.

Lemma SignExtend_testbit (i : Z) :
  0 <= i < 16 ->
  Z.testbit (SignExtend x w) i =
  if i <? w then Z.testbit x i else Z.testbit x (w - 1).
Proof.
  intros Hi.
  assert (Hhigh : forall j, w <= j -> Z.testbit x j = false).
  { intros j Hj. apply (testbit_high x w j); lia. }
  assert (Hsign : Z.testbit x (w - 1) = negb (x <? 2 ^ (w - 1))).
  { rewrite Z.testbit_eqb by lia. rewrite <- Z.shiftr_div_pow2 by lia.
    rewrite <- land_1_mod, sign_bit_value.
    destruct (x <? 2 ^ (w - 1)); reflexivity. }
  unfold SignExtend. rewrite sign_bit_value.
  destruct (Z.ltb_spec x (2 ^ (w - 1))) as [Hlt | Hge]; cbn [Z.eqb negb].
  - destruct (Z.ltb_spec i w) as [Hiw | Hiw]; [reflexivity |].
    rewrite Hhigh by lia. rewrite Hsign.
    destruct (Z.ltb_spec x (2 ^ (w - 1))); [reflexivity | lia].
  - unfold wrap16. change 65536 with (2 ^ 16).
    rewrite Z.mod_pow2_bits_low by lia.
    rewrite Z.lor_spec.
    destruct (Z.ltb_spec i w) as [Hiw | Hiw].
    + rewrite Z.shiftl_spec_low by lia. apply orb_false_r.
    + rewrite Hhigh by lia. rewrite Z.shiftl_spec by lia.
      change 65535 with (Z.ones 16). rewrite Z.ones_spec_low by lia.
      rewrite Hsign. destruct (Z.ltb_spec x (2 ^ (w - 1))); [lia | reflexivity].
Qed.

End SignExtension.

(** C4.  For every 16-bit [v] and every width [w] among 5, 6, 9 and 11,
    [SignExtend (v & mask w) w] read as a signed 16-bit number is the low
    [w] bits of [v] read as a signed [w]-bit number; bit for bit, the
    result keeps bits [0..w-1] of its argument and carries a copy of bit
    [w-1] in each of the bits [w..15]. *)
Theorem SignExtend_correct (v w : Z) :
  is_u16 v ->
  In w [5; 6; 9; 11] ->
  let x := Z.land v (mask w) in
  is_u16 (SignExtend x w)
  /\ signed16 (SignExtend x w) = signed_field w v
  /\ (forall i, 0 <= i < w ->
        Z.testbit (SignExtend x w) i = Z.testbit x i)
  /\ (forall i, w <= i < 16 ->
        Z.testbit (SignExtend x w) i = Z.testbit x (w - 1)).
Proof.
  intros Hv Hw x.
  assert (Hw' : 0 < w <= 16) by (simpl in Hw; lia).
  assert (Hx : 0 <= x < 2 ^ w).
  { unfold x. rewrite land_mask_mod by lia. apply Z.mod_pos_bound.
    apply Z.pow_pos_nonneg; lia. }
  split; [apply SignExtend_range; assumption |].
  split.
  - rewrite SignExtend_signed16 by assumption.
    unfold signed_field, x. rewrite land_mask_mod by lia.
    rewrite Z.mod_mod by lia. reflexivity.
  - split; intros i Hi.
    + rewrite SignExtend_testbit by (assumption || lia).
      destruct (Z.ltb_spec i w); [reflexivity | lia].
    + rewrite SignExtend_testbit by (assumption || lia).
      destruct (Z.ltb_spec i w); [lia | reflexivity].
Qed.

Lemma SignExtend_correct_witness :
  is_u16 0xFFF0 /\ In 5 [5; 6; 9; 11]
  /\ signed16 (SignExtend (Z.land 0xFFF0 (mask 5)) 5) = -16.
Proof.
  assert (Hv : is_u16 0xFFF0) by (unfold is_u16; lia).
  assert (Hw : In 5 [5; 6; 9; 11]) by (simpl; auto).
  split; [exact Hv |]. split; [exact Hw |].
  destruct (SignExtend_correct 0xFFF0 5 Hv Hw) as [_ [Hs _]].
  rewrite Hs. reflexivity.
Defined.

(** ** The memory bus *)

Lemma Read_other_address (a : Z) (s : Machine) :
  a <> MR_KBSR -> MemoryIO.Read a s = (memory s a, s).
Proof.
  intros Ha. unfold MemoryIO.Read.
  destruct (Z.eqb_spec a MR_KBSR); [contradiction | reflexivity].
Qed.

Lemma Read_registers (a : Z) (s : Machine) :
  registers (snd (MemoryIO.Read a s)) = registers s.
Proof.
  unfold MemoryIO.Read. destruct (a =? MR_KBSR); [| reflexivity].
  destruct (OS.CheckKey (os s)) as [key h1].
  destruct (negb (key =? 0)); [| reflexivity].
  cbn [os set_memory set_os]. destruct (getchar h1). reflexivity.
Qed.

Lemma Read_running (a : Z) (s : Machine) :
  running (snd (MemoryIO.Read a s)) = running s.
Proof.
  unfold MemoryIO.Read. destruct (a =? MR_KBSR); [| reflexivity].
  destruct (OS.CheckKey (os s)) as [key h1].
  destruct (negb (key =? 0)); [| reflexivity].
  cbn [os set_memory set_os]. destruct (getchar h1). reflexivity.
Qed.

Lemma Read_returns_stored (a : Z) (s : Machine) :
  fst (MemoryIO.Read a s) = memory (snd (MemoryIO.Read a s)) a.
Proof. reflexivity. Qed.

(** A read leaves a cell alone unless the cell is the status register,
    or it is the data register and the status register is the one read. *)
Lemma Read_memory_frame (addr a : Z) (s : Machine) :
  a <> MR_KBSR ->
  a <> MR_KBDR \/ addr <> MR_KBSR ->
  memory (snd (MemoryIO.Read addr s)) a = memory s a.
Proof.
  intros Hs Hd. unfold MemoryIO.Read.
  destruct (Z.eqb_spec addr MR_KBSR) as [-> | Hne]; [| reflexivity].
  assert (Ha : a <> MR_KBDR) by (destruct Hd as [H | H]; [exact H | contradiction]).
  destruct (OS.CheckKey (os s)) as [key h1].
  destruct (negb (key =? 0)); cbn [snd].
  - cbn [os set_memory set_os]. destruct (getchar h1) as [c h2].
    cbn [memory set_memory set_os]. rewrite !upd_other by assumption. reflexivity.
  - cbn [memory set_memory set_os]. rewrite upd_other by assumption. reflexivity.
Qed.

(** C1.  A read of the keyboard status register polls the console first.
    When the poll reports a key and the input delivers a character (the
    contract of the console is that a reported key can be read), the
    status register becomes 0x8000 and the data register the character,
    a 16-bit value whose high byte is zero; when the poll reports no key
    the status register becomes 0.  Either way the call returns the
    status register as just written.  A read of any other address returns
    the stored word and leaves the whole machine as it was. *)
Theorem Read_spec (s : Machine) :
  (forall key h1 ch rest,
      OS.CheckKey (os s) = (key, h1) -> key <> 0 -> stdin h1 = ch :: rest ->
      MemoryIO.Read MR_KBSR s =
        (0x8000,
         mkMachine (registers s)
           (upd (upd (memory s) MR_KBSR 0x8000) MR_KBDR (byte_val ch))
           (running s)
           (mkHost (keyhits h1) rest (stdout h1)))
      /\ Z.shiftr (byte_val ch) 8 = 0)
  /\ (forall h1,
      OS.CheckKey (os s) = (0, h1) ->
      MemoryIO.Read MR_KBSR s =
        (0, mkMachine (registers s) (upd (memory s) MR_KBSR 0) (running s) h1))
  /\ fst (MemoryIO.Read MR_KBSR s) = memory (snd (MemoryIO.Read MR_KBSR s)) MR_KBSR
  /\ (forall a, a <> MR_KBSR -> MemoryIO.Read a s = (memory s a, s)).
Proof.
  split; [| split; [| split]].
  - intros key h1 ch rest Hpoll Hkey Hin.
    assert (Hb := byte_val_range ch).
    split.
    + unfold MemoryIO.Read. rewrite Z.eqb_refl, Hpoll.
      destruct (Z.eqb_spec key 0) as [-> | _]; [contradiction |].
      cbn [negb os set_memory set_os]. unfold getchar. rewrite Hin.
      cbn [memory registers running os set_memory set_os].
      rewrite (wrap16_small (byte_val ch)) by (unfold is_u16; lia).
      change (wrap16 (Z.shiftl 1 15)) with 0x8000.
      rewrite upd_other by discriminate. rewrite upd_same. reflexivity.
    + rewrite Z.shiftr_div_pow2 by lia. apply Z.div_small. exact Hb.
  - intros h1 Hpoll. unfold MemoryIO.Read.
    rewrite Z.eqb_refl, Hpoll.
    cbn [Z.eqb negb memory set_memory set_os]. rewrite upd_same. reflexivity.
  - apply Read_returns_stored.
  - intros a Ha. apply Read_other_address. exact Ha.
Qed.

Lemma Read_spec_witness :
  let s := mkMachine (fun _ => 0) (fun _ => 0) 1
             (mkHost [true] ["a"%char] []) in
  MemoryIO.Read MR_KBSR s =
    (0x8000,
     mkMachine (registers s)
       (upd (upd (memory s) MR_KBSR 0x8000) MR_KBDR 97)
       (running s) (mkHost [] [] []))
  /\ fst (MemoryIO.Read MR_KBDR s) = 0.
Proof.
  intros s. destruct (Read_spec s) as [Hkey [_ [_ Hother]]]. split.
  - apply (Hkey 1 (mkHost [] ["a"%char] []) "a"%char []);
      [reflexivity | discriminate | reflexivity].
  - rewrite (Hother MR_KBDR) by discriminate. reflexivity.
Defined.

(** Outside that contract of the console, when a key is reported but the
    input is at its end, [getchar] returns [EOF] and its conversion to
    [uint16_t], 0xFFFF, is what the data register receives. *)
Example Read_KBSR_at_end_of_input :
  let s := mkMachine (fun _ => 0) (fun _ => 0) 1 (mkHost [true] [] []) in
  fst (MemoryIO.Read MR_KBSR s) = 0x8000
  /\ memory (snd (MemoryIO.Read MR_KBSR s)) MR_KBDR = 0xFFFF.
Proof. split; reflexivity. Qed.

Lemma bus_step_frame (a : Z) (op : bus_op) (s : Machine) :
  a <> MR_KBSR ->
  writes_to a op = false ->
  a <> MR_KBDR \/ reads_from MR_KBSR op = false ->
  memory (bus_step op s) a = memory s a.
Proof.
  intros Hs Hw Hd. destruct op as [addr | addr v]; cbn [bus_step].
  - apply Read_memory_frame; [exact Hs |].
    destruct Hd as [H | H]; [left; exact H | right].
    cbn [reads_from] in H. apply Z.eqb_neq. exact H.
  - cbn [writes_to] in Hw. apply Z.eqb_neq in Hw.
    unfold MemoryIO.Write. cbn [memory set_memory].
    apply upd_other. congruence.
Qed.

Lemma bus_run_frame (a : Z) (ops : list bus_op) :
  a <> MR_KBSR ->
  forallb (fun op => negb (writes_to a op)) ops = true ->
  a <> MR_KBDR \/ forallb (fun op => negb (reads_from MR_KBSR op)) ops = true ->
  forall s, memory (bus_run ops s) a = memory s a.
Proof.
  intros Hs. unfold bus_run.
  induction ops as [| op ops IH]; intros Hw Hd s; [reflexivity |].
  cbn [forallb] in Hw. apply andb_true_iff in Hw. destruct Hw as [Hw1 Hw2].
  apply negb_true_iff in Hw1.
  cbn [fold_left]. rewrite IH.
  - apply bus_step_frame; [exact Hs | exact Hw1 |].
    destruct Hd as [H | H]; [left; exact H | right].
    cbn [forallb] in H. apply andb_true_iff in H.
    apply negb_true_iff. apply H.
  - exact Hw2.
  - destruct Hd as [H | H]; [left; exact H | right].
    cbn [forallb] in H. apply andb_true_iff in H. apply H.
Qed.

(** C9, as the specification states it, fails: a read of the status
    register that finds a key stores the character in the data register
    0xFE02, so a word written there before is lost without any write to
    that address. *)
Lemma write_read_claim_fails : ~ write_read_claim.
Proof.
  intros H.
  specialize (H MR_KBDR 0x1234 [BusRead MR_KBSR]
                (mkMachine (fun _ => 0) (fun _ => 0) 1
                   (mkHost [true] ["a"%char] []))).
  assert (Hne : MR_KBDR <> MR_KBSR) by discriminate.
  specialize (H Hne eq_refl). vm_compute in H. discriminate H.
Qed.

(** C9, amended.  For every address [a] other than the status register,
    a write of [v] to [a] followed by any bus operations and then a read
    of [a] returns [v], provided that none of the operations in between
    writes to [a] and that, when [a] is the data register 0xFE02, none of
    them reads the status register. *)
Theorem write_then_read (a v : Z) (ops : list bus_op) (s : Machine) :
  a <> MR_KBSR ->
  forallb (fun op => negb (writes_to a op)) ops = true ->
  (a = MR_KBDR ->
   forallb (fun op => negb (reads_from MR_KBSR op)) ops = true) ->
  fst (MemoryIO.Read a (bus_run ops (MemoryIO.Write a v s))) = v.
Proof.
  intros Hs Hw Hd.
  rewrite Read_other_address by exact Hs. cbn [fst].
  rewrite bus_run_frame; [| exact Hs | exact Hw |].
  - unfold MemoryIO.Write. cbn [memory set_memory]. apply upd_same.
  - destruct (Z.eq_dec a MR_KBDR) as [He | Hn]; [right; auto | left; exact Hn].
Qed.

Lemma write_then_read_witness :
  fst (MemoryIO.Read 0x3000
         (bus_run [BusRead MR_KBSR; BusWrite 0x3001 7; BusRead 0x3000]
            (MemoryIO.Write 0x3000 0x1234
               (mkMachine (fun _ => 0) (fun _ => 0) 1
                  (mkHost [true] ["a"%char] []))))) = 0x1234.
Proof.
  apply write_then_read.
  - discriminate.
  - reflexivity.
  - intros H. discriminate H.
Defined.

(** ** The image loader *)

Lemma lor_high_low (a b : Z) :
  0 <= b < 256 -> Z.lor (256 * a) b = 256 * a + b.
Proof.
  intros Hb.
  assert (Hdisj : Z.land (256 * a) b = 0).
  { apply Z.bits_inj'. intros i Hi. rewrite Z.land_spec, Z.bits_0.
    destruct (Z.ltb_spec i 8) as [Hlt | Hge].
    - replace (256 * a) with (a * 2 ^ 8) by lia.
      rewrite Z.mul_pow2_bits_low by lia. reflexivity.
    - rewrite (testbit_high b 8 i) by (change (2 ^ 8) with 256; lia).
      apply andb_false_r. }
  rewrite <- Z.lxor_lor by exact Hdisj.
  symmetry. apply Z.add_nocarry_lxor. exact Hdisj.
Qed.

Lemma Swap16_bytes (lo hi : Z) :
  0 <= lo < 256 -> 0 <= hi < 256 ->
  Swap16 (lo + 256 * hi) = 256 * lo + hi.
Proof.
  intros Hlo Hhi. unfold Swap16.
  rewrite Z.shiftl_mul_pow2, Z.shiftr_div_pow2 by lia.
  change (2 ^ 8) with 256.
  assert (Hq : (lo + 256 * hi) / 256 = hi).
  { symmetry. apply (Z.div_unique (lo + 256 * hi) 256 hi lo); lia. }
  rewrite Hq.
  replace ((lo + 256 * hi) * 256) with (256 * (lo + 256 * hi)) by lia.
  rewrite lor_high_low by exact Hhi.
  unfold wrap16.
  replace (256 * (lo + 256 * hi) + hi) with (256 * lo + hi + hi * 65536) by lia.
  rewrite Z.mod_add by lia. apply Z.mod_small. lia.
Qed.

Lemma be_word_range (w : ascii * ascii) : is_u16 (be_word w).
Proof.
  unfold is_u16, be_word.
  pose proof (byte_val_range (fst w)). pose proof (byte_val_range (snd w)). lia.
Qed.

(** On a little-endian host the swap of a word read raw from the file is
    the word the file means. *)
Lemma Swap16_little_endian (b0 b1 : ascii) :
  Swap16 (word_of_bytes LittleEndian b0 b1) = be_word (b0, b1).
Proof.
  unfold word_of_bytes, be_word. cbn [fst snd].
  apply Swap16_bytes; apply byte_val_range.
Qed.

Lemma swap_words_spec (n : nat) :
  forall (mem : Z -> Z) (p a : Z),
    CPU.swap_words n mem p a =
    if (p <=? a) && (a <? p + Z.of_nat n) then Swap16 (mem a) else mem a.
Proof.
  induction n as [| n IH]; intros mem p a.
  - cbn [CPU.swap_words]. destruct (Z.leb_spec p a), (Z.ltb_spec a (p + Z.of_nat 0));
      cbn [andb]; solve [reflexivity | lia].
  - cbn [CPU.swap_words]. rewrite IH. unfold upd.
    destruct (Z.eqb_spec a p) as [-> | Hne].
    + destruct (Z.leb_spec (p + 1) p), (Z.leb_spec p p),
        (Z.ltb_spec p (p + 1 + Z.of_nat n)), (Z.ltb_spec p (p + Z.of_nat (S n)));
        cbn [andb]; solve [reflexivity | lia].
    + destruct (Z.leb_spec (p + 1) a), (Z.leb_spec p a),
        (Z.ltb_spec a (p + 1 + Z.of_nat n)), (Z.ltb_spec a (p + Z.of_nat (S n)));
        cbn [andb]; solve [reflexivity | lia].
Qed.

(** What [fread] leaves in memory when the stream holds whole words. *)
Lemma fread_words (bo : byte_order) (ws : list (ascii * ascii)) :
  forall (count : nat) (mem : Z -> Z) (p : Z),
  exists mem1,
    fread bo count (flat_map (fun w => [fst w; snd w]) ws) mem p
      = Some (mem1, Nat.min count (List.length ws))
    /\ forall a,
        mem1 a =
        if (p <=? a) && (a <? p + Z.of_nat (Nat.min count (List.length ws)))
        then word_of_bytes bo (fst (nth (Z.to_nat (a - p)) ws (zero, zero)))
                              (snd (nth (Z.to_nat (a - p)) ws (zero, zero)))
        else mem a.
Proof.
  induction ws as [| w ws IH]; intros count mem p.
  - exists mem. split.
    + destruct count; cbn [fread flat_map Nat.min List.length]; reflexivity.
    + intros a. rewrite Nat.min_0_r.
      destruct (Z.leb_spec p a), (Z.ltb_spec a (p + Z.of_nat 0));
        cbn [andb]; solve [reflexivity | lia].
  - destruct count as [| count].
    + exists mem. split; [reflexivity |]. intros a. cbn [Nat.min].
      destruct (Z.leb_spec p a), (Z.ltb_spec a (p + Z.of_nat 0));
        cbn [andb]; solve [reflexivity | lia].
    + destruct (IH count (upd mem p (word_of_bytes bo (fst w) (snd w))) (p + 1))
        as [mem1 [Hread Hmem]].
      exists mem1. split.
      * cbn [flat_map app fread List.length Nat.min]. rewrite Hread. reflexivity.
      * intros a. rewrite Hmem. cbn [List.length Nat.min].
        set (k := Nat.min count (List.length ws)).
        destruct (Z.eqb_spec a p) as [-> | Hne].
        -- replace (p - p) with 0 by lia. cbn [Z.to_nat nth].
           rewrite upd_same.
           destruct (Z.leb_spec (p + 1) p), (Z.leb_spec p p),
             (Z.ltb_spec p (p + 1 + Z.of_nat k)), (Z.ltb_spec p (p + Z.of_nat (S k)));
             cbn [andb]; solve [reflexivity | lia].
        -- rewrite upd_other by exact Hne.
           destruct (Z.leb_spec (p + 1) a), (Z.leb_spec p a),
             (Z.ltb_spec a (p + 1 + Z.of_nat k)), (Z.ltb_spec a (p + Z.of_nat (S k)));
             cbn [andb]; try solve [reflexivity | lia].
           replace (Z.to_nat (a - p)) with (S (Z.to_nat (a - (p + 1)))) by lia.
           reflexivity.
Qed.

(** C2, as the specification states it, fails: the loader swaps the two
    bytes of every word whatever the host, so on a big-endian host the
    image 30 00 12 34 is not loaded at 0x3000 at all (its origin is taken
    to be 0x0030, and 0x3412 is stored there). *)
Lemma image_load_claim_fails : ~ image_load_claim.
Proof.
  intros H.
  assert (Hload :
    CPU.ReadImageFile BigEndian
      (image_file (chr 0x30, chr 0x00) [(chr 0x12, chr 0x34)]) (fun _ => 0)
    = Some (CPU.swap_words 1 (upd (fun _ => 0) 0x30 0x1234) 0x30))
    by reflexivity.
  specialize (H BigEndian _ _ _ _ Hload 0).
  assert (Hi : 0 <= 0 < Z.of_nat (List.length [(chr 0x12, chr 0x34)]))
    by (cbn; lia).
  specialize (H Hi eq_refl).
  vm_compute in H. discriminate H.
Qed.

(** On a little-endian host the statement still fails for the origin 0,
    where [maxRead] is 0 (see C10): of the image 00 00 12 34 nothing is
    loaded. *)
Lemma image_load_origin_zero_fails : ~ image_load_claim_on LittleEndian.
Proof.
  intros H.
  assert (Hload :
    CPU.ReadImageFile LittleEndian
      (image_file (chr 0x00, chr 0x00) [(chr 0x12, chr 0x34)]) (fun _ => 0)
    = Some (fun _ => 0))
    by reflexivity.
  specialize (H _ _ _ _ Hload 0).
  assert (Hi : 0 <= 0 < Z.of_nat (List.length [(chr 0x12, chr 0x34)]))
    by (cbn; lia).
  specialize (H Hi eq_refl).
  vm_compute in H. discriminate H.
Qed.

(** C2, amended.  On a little-endian host, for an image file made of an
    origin word [O] other than 0 followed by [N] data words, each stored
    high byte first, the load succeeds and leaves data word [i] in
    [memory[O+i]] for every [i] below both [N] and [0x10000 - O]; no other
    cell changes, so that at most [0x10000 - O] words are loaded and the
    bytes after them are ignored. *)
Theorem ReadImageFile_little_endian
    (o : ascii * ascii) (ws : list (ascii * ascii)) (mem : Z -> Z) :
  be_word o <> 0 ->
  exists mem',
    CPU.ReadImageFile LittleEndian (image_file o ws) mem = Some mem'
    /\ (forall i,
          0 <= i < Z.min (Z.of_nat (List.length ws)) (0x10000 - be_word o) ->
          mem' (be_word o + i) = data_word ws i)
    /\ (forall a,
          ~ (be_word o <= a
             < be_word o + Z.min (Z.of_nat (List.length ws)) (0x10000 - be_word o)) ->
          mem' a = mem a).
Proof.
  intros Ho. destruct o as [b0 b1].
  pose proof (be_word_range (b0, b1)) as Hr. unfold is_u16 in Hr.
  set (O := be_word (b0, b1)) in *.
  assert (Hmax : wrap16 (MEMORY_MAX - O) = 65536 - O).
  { unfold wrap16. change MEMORY_MAX with 65536. apply Z.mod_small. lia. }
  destruct (fread_words LittleEndian ws (Z.to_nat (65536 - O)) mem O)
    as [mem1 [Hread Hmem1]].
  set (k := Nat.min (Z.to_nat (65536 - O)) (List.length ws)) in *.
  assert (Hk : Z.of_nat k = Z.min (Z.of_nat (List.length ws)) (65536 - O)).
  { unfold k. lia. }
  exists (CPU.swap_words k mem1 O).
  split; [| split].
  - unfold CPU.ReadImageFile, image_file. cbn [fst snd].
    rewrite Swap16_little_endian. fold O. rewrite Hmax, Hread. reflexivity.
  - intros i Hi. rewrite swap_words_spec, Hmem1.
    destruct (Z.leb_spec O (O + i)), (Z.ltb_spec (O + i) (O + Z.of_nat k));
      cbn [andb]; try lia.
    replace (O + i - O) with i by lia.
    rewrite Swap16_little_endian. unfold data_word.
    destruct (nth (Z.to_nat i) ws (zero, zero)); reflexivity.
  - intros a Ha. rewrite swap_words_spec, Hmem1.
    destruct (Z.leb_spec O a), (Z.ltb_spec a (O + Z.of_nat k));
      cbn [andb]; solve [reflexivity | lia].
Qed.

Lemma ReadImageFile_little_endian_witness :
  exists mem',
    CPU.ReadImageFile LittleEndian
      (image_file (chr 0x30, chr 0x00) [(chr 0x12, chr 0x34); (chr 0x56, chr 0x78)])
      (fun _ => 0) = Some mem'
    /\ mem' 0x3000 = 0x1234 /\ mem' 0x3001 = 0x5678 /\ mem' 0x3002 = 0.
Proof.
  destruct (ReadImageFile_little_endian (chr 0x30, chr 0x00)
              [(chr 0x12, chr 0x34); (chr 0x56, chr 0x78)] (fun _ => 0))
    as [mem' [Hload [Hin Hout]]].
  - vm_compute. discriminate.
  - exists mem'. split; [exact Hload |]. split; [| split].
    + apply (Hin 0). vm_compute. split; [discriminate | reflexivity].
    + apply (Hin 1). vm_compute. split; [discriminate | reflexivity].
    + apply (Hout 0x3002). vm_compute. intros [_ H]. discriminate H.
Defined.

(** C10.  When the origin word of an image file is 0x0000 the number of
    words asked of [fread], [MEMORY_MAX - origin] converted to
    [uint16_t], is 0: no data word is read and the load leaves memory as
    it was, whatever follows the origin in the file. *)
Theorem ReadImageFile_origin_zero
    (bo : byte_order) (rest : list ascii) (mem : Z -> Z) :
  Swap16 (word_of_bytes bo zero zero) = 0
  /\ wrap16 (MEMORY_MAX - 0) = 0
  /\ fread bo (Z.to_nat (wrap16 (MEMORY_MAX - 0))) rest mem 0 = Some (mem, O)
  /\ CPU.ReadImageFile bo (zero :: zero :: rest) mem = Some mem.
Proof.
  assert (Horigin : Swap16 (word_of_bytes bo zero zero) = 0)
    by (destruct bo; reflexivity).
  split; [exact Horigin |].
  split; [reflexivity |].
  split; [reflexivity |].
  unfold CPU.ReadImageFile. rewrite Horigin. reflexivity.
Qed.

(** ** Condition codes *)

Lemma sign_class_one_hot (v : Z) : In (sign_class v) [1; 2; 4].
Proof.
  unfold sign_class. destruct (v =? 0); [simpl; auto |].
  destruct (Z.testbit v 15); simpl; auto.
Qed.

Lemma bit15_shift (v : Z) : is_u16 v -> (Z.shiftr v 15 =? 1) = Z.testbit v 15.
Proof.
  unfold is_u16. intros Hv.
  rewrite Z.testbit_odd, Z.shiftr_div_pow2 by lia.
  change (2 ^ 15) with 32768.
  destruct (Z.ltb_spec v 32768) as [Hlt | Hge].
  - rewrite Z.div_small by lia. reflexivity.
  - replace (v / 32768) with 1; [reflexivity |].
    apply (Z.div_unique v 32768 1 (v - 32768)); lia.
Qed.

Lemma UpdateFlags_registers (DR : Z) (s : Machine) :
  is_u16 (registers s DR) ->
  registers (CPU.UpdateFlags DR s) =
  upd (registers s) R_COND (sign_class (registers s DR)).
Proof.
  intros Hv. unfold CPU.UpdateFlags, sign_class.
  rewrite <- (bit15_shift _ Hv).
  destruct (registers s DR =? 0); [reflexivity |].
  destruct (Z.shiftr (registers s DR) 15 =? 1); reflexivity.
Qed.

(** Whatever the register holds, [UpdateFlags] writes one of the three
    flags into the condition register and nothing anywhere else. *)
Lemma UpdateFlags_shape (DR : Z) (s : Machine) :
  exists f, In f [1; 2; 4]
    /\ CPU.UpdateFlags DR s =
       mkMachine (upd (registers s) R_COND f) (memory s) (running s) (os s).
Proof.
  unfold CPU.UpdateFlags.
  destruct (registers s DR =? 0); [exists 2; simpl; auto |].
  destruct (Z.shiftr (registers s DR) 15 =? 1);
    [exists 4 | exists 1]; simpl; auto.
Qed.

Lemma UpdateFlags_memory (DR : Z) (s : Machine) :
  memory (CPU.UpdateFlags DR s) = memory s.
Proof. destruct (UpdateFlags_shape DR s) as [f [_ ->]]. reflexivity. Qed.

Lemma DR_field_range (instruction : Z) : 0 <= DR_field instruction < 8.
Proof. apply land_7_range. Qed.

(** Writing a general-purpose register and updating the flags on it. *)
Lemma write_and_flag (DR v : Z) (s : Machine) :
  0 <= DR < 8 -> is_u16 v ->
  let s' := CPU.UpdateFlags DR (set_register DR v s) in
  registers s' DR = v /\ registers s' R_COND = sign_class v.
Proof.
  intros HDR Hv s'. unfold s'.
  rewrite UpdateFlags_registers;
    cbn [registers set_register]; rewrite upd_same; [| exact Hv].
  rewrite upd_same. rewrite upd_other by (unfold R_COND; lia).
  rewrite upd_same. split; reflexivity.
Qed.

Lemma Read_value_u16 (a : Z) (s : Machine) :
  (forall x, is_u16 (memory s x)) ->
  is_u16 (fst (MemoryIO.Read a s))
  /\ forall x, is_u16 (memory (snd (MemoryIO.Read a s)) x).
Proof.
  intros Hm.
  assert (Hall : forall x, is_u16 (memory (snd (MemoryIO.Read a s)) x)).
  { unfold MemoryIO.Read. destruct (a =? MR_KBSR); [| exact Hm].
    destruct (OS.CheckKey (os s)) as [key h1].
    destruct (negb (key =? 0)); cbn [snd].
    - cbn [os set_memory set_os]. destruct (getchar h1) as [c h2].
      cbn [memory set_memory set_os]. intros x. unfold upd.
      destruct (x =? MR_KBDR); [apply wrap16_range |].
      destruct (x =? MR_KBSR); [apply wrap16_range | apply Hm].
    - cbn [memory set_memory set_os]. intros x. unfold upd.
      destruct (x =? MR_KBSR); [unfold is_u16; lia | apply Hm]. }
  split; [| exact Hall]. rewrite Read_returns_stored. apply Hall.
Qed.

Lemma Read_shape (a : Z) (s : Machine) :
  exists m h,
    MemoryIO.Read a s = (m a, mkMachine (registers s) m (running s) h)
    /\ ((forall x, is_u16 (memory s x)) -> forall x, is_u16 (m x)).
Proof.
  pose proof (Read_value_u16 a s) as Hu.
  pose proof (Read_registers a s) as Hr.
  pose proof (Read_running a s) as Hn.
  destruct (MemoryIO.Read a s) as [v s'] eqn:E.
  pose proof (Read_returns_stored a s) as Hv. rewrite E in *.
  cbn [fst snd] in *. subst v.
  exists (memory s'), (os s'). split.
  - destruct s'. cbn [registers memory running os] in *. subst. reflexivity.
  - intros Hm. apply Hu. exact Hm.
Qed.

Ltac machine_simpl :=
  cbn [registers memory running os set_register set_memory set_os
       set_running fst snd].

Ltac machine_simpl_all :=
  cbn [registers memory running os set_register set_memory set_os
       set_running fst snd] in *.

Ltac expose_reads :=
  repeat match goal with
    | |- context [MemoryIO.Read ?a ?s] =>
        let m := fresh "m" in
        let h := fresh "h" in
        let E := fresh "E" in
        let Hm := fresh "Hm" in
        destruct (Read_shape a s) as [m [h [E Hm]]];
        rewrite E; clear E; machine_simpl_all
    end.

Ltac expose_flags :=
  repeat match goal with
    | |- context [CPU.UpdateFlags ?d ?s] =>
        let f := fresh "f" in
        let Hf := fresh "Hf" in
        let E := fresh "E" in
        destruct (UpdateFlags_shape d s) as [f [Hf E]];
        rewrite E; clear E; machine_simpl
    end.

Ltac reg_neq :=
  unfold R_PC, R_COND, R_7, R_0;
  first [ lia
        | match goal with
          | |- context [Z.land ?a 7] => pose proof (land_7_range a); lia
          end ].

(** The general-purpose register named by a three-bit field is neither
    the program counter nor the condition register, so the handlers that
    only write such a register and the flags keep the program counter. *)
Section ProgramCounter.

Variables (instruction : Z) (s : Machine).

Lemma ADD_PC :
  registers (ArithmeticLogicUnit.ADD instruction s) R_PC = registers s R_PC.
Proof.
  unfold ArithmeticLogicUnit.ADD. cbv zeta.
  destruct (negb (Z.land (Z.shiftr instruction 5) 1 =? 0));
    expose_flags; rewrite !upd_other by reg_neq; reflexivity.
Qed.

Lemma AND_PC :
  registers (ArithmeticLogicUnit.AND instruction s) R_PC = registers s R_PC.
Proof.
  unfold ArithmeticLogicUnit.AND. cbv zeta.
  destruct (negb (Z.land (Z.shiftr instruction 5) 1 =? 0));
    expose_flags; rewrite !upd_other by reg_neq; reflexivity.
Qed.

Lemma NOT_PC :
  registers (ArithmeticLogicUnit.NOT instruction s) R_PC = registers s R_PC.
Proof.
  unfold ArithmeticLogicUnit.NOT. cbv zeta.
  expose_flags; rewrite !upd_other by reg_neq; reflexivity.
Qed.

Lemma LD_PC :
  registers (ArithmeticLogicUnit.LD instruction s) R_PC = registers s R_PC.
Proof.
  unfold ArithmeticLogicUnit.LD. cbv zeta. expose_reads.
  expose_flags; rewrite !upd_other by reg_neq; reflexivity.
Qed.

Lemma LDR_PC :
  registers (ArithmeticLogicUnit.LDR instruction s) R_PC = registers s R_PC.
Proof.
  unfold ArithmeticLogicUnit.LDR. cbv zeta. expose_reads.
  expose_flags; rewrite !upd_other by reg_neq; reflexivity.
Qed.

Lemma LDI_PC :
  registers (ArithmeticLogicUnit.LDI instruction s) R_PC = registers s R_PC.
Proof.
  unfold ArithmeticLogicUnit.LDI. cbv zeta. expose_reads.
  expose_flags; rewrite !upd_other by reg_neq; reflexivity.
Qed.

Lemma LEA_PC :
  registers (ArithmeticLogicUnit.LEA instruction s) R_PC = registers s R_PC.
Proof.
  unfold ArithmeticLogicUnit.LEA. cbv zeta.
  expose_flags; rewrite !upd_other by reg_neq; reflexivity.
Qed.

Lemma ST_PC :
  registers (ArithmeticLogicUnit.ST instruction s) R_PC = registers s R_PC.
Proof. reflexivity. Qed.

Lemma STI_PC :
  registers (ArithmeticLogicUnit.STI instruction s) R_PC = registers s R_PC.
Proof.
  unfold ArithmeticLogicUnit.STI. cbv zeta. expose_reads. reflexivity.
Qed.

Lemma STR_PC :
  registers (ArithmeticLogicUnit.STR instruction s) R_PC = registers s R_PC.
Proof. reflexivity. Qed.

Lemma BR_PC :
  registers (ArithmeticLogicUnit.BR instruction s) R_PC =
  if negb (Z.land (Z.land (Z.shiftr instruction 9) 7) (registers s R_COND) =? 0)
  then wrap16 (registers s R_PC
               + SignExtend (Z.land instruction 0x01FF) 9)
  else registers s R_PC.
Proof.
  unfold ArithmeticLogicUnit.BR. cbv zeta.
  destruct (negb (Z.land (Z.land (Z.shiftr instruction 9) 7)
                    (registers s R_COND) =? 0)); [| reflexivity].
  machine_simpl. apply upd_same.
Qed.

End ProgramCounter.

(** ** The fetch-decode-execute step and the program counter *)

Lemma fetch_shape (s : Machine) :
  exists m h,
    VirtualMachine.fetch s =
    (m (registers s R_PC),
     mkMachine (upd (registers s) R_PC (wrap16 (registers s R_PC + 1)))
       m (running s) h).
Proof.
  unfold VirtualMachine.fetch. cbv zeta.
  destruct (Read_shape (registers s R_PC)
              (set_register R_PC (wrap16 (registers s R_PC + 1)) s))
    as [m [h [E _]]].
  exists m, h. exact E.
Qed.

(** C5, as the specification states it, fails: a branch that is taken is
    not among its exceptions.  With the condition register at Z and the
    program counter at 0x3000, [BRz #2] (0x0402) leaves the counter at
    0x3003, not 0x3001. *)
Lemma pc_claim_fails : ~ pc_claim.
Proof.
  intros H.
  set (s := CPU.init (fun _ => 0) (upd (fun _ => 0) 0x3000 0x0402)
              (mkHost [] [] [])).
  destruct (VirtualMachine.step s) as [s' | s' |] eqn:E;
    try (vm_compute in E; discriminate E).
  assert (Hpc : registers s' R_PC = 0x3003).
  { vm_compute in E. injection E as <-. reflexivity. }
  specialize (H s s' E).
  rewrite Hpc in H.
  assert (Hbr : ~ branch_not_taken s).
  { intros [_ Hn]. vm_compute in Hn. discriminate Hn. }
  assert (Hop : opcode s = 0) by reflexivity.
  specialize (H Hbr).
  rewrite Hop in H.
  specialize (H ltac:(discriminate) ltac:(discriminate) ltac:(discriminate)).
  vm_compute in H. discriminate H.
Qed.

(** C5, amended.  The fetch reads the bus at the program counter, and
    the counter is incremented modulo 2^16 before the instruction is
    decoded.  For every instruction whose handler returns, except a BR
    that is taken, JMP, JSR and TRAP, the program counter after the step
    is the counter before the fetch plus 1, modulo 2^16; in particular
    this holds for a BR that is not taken. *)
Theorem step_PC (s s' : Machine) :
  VirtualMachine.step s = VirtualMachine.Continue s' ->
  ~ branch_taken s ->
  opcode s <> OP_JMP -> opcode s <> OP_JSR -> opcode s <> OP_TRAP ->
  VirtualMachine.fetch s =
    MemoryIO.Read (registers s R_PC)
      (set_register R_PC (wrap16 (registers s R_PC + 1)) s)
  /\ fetched s = memory (snd (VirtualMachine.fetch s)) (registers s R_PC)
  /\ registers (snd (VirtualMachine.fetch s)) R_PC
     = wrap16 (registers s R_PC + 1)
  /\ registers s' R_PC = wrap16 (registers s R_PC + 1).
Proof.
  intros Hstep Hbr Hjmp Hjsr Htrap.
  split; [reflexivity |]. split; [reflexivity |].
  unfold branch_taken, nzp_matches, opcode, fetched in *.
  unfold VirtualMachine.step in Hstep.
  destruct (fetch_shape s) as [m [h E]]. rewrite E in *. cbn [fst snd] in *.
  set (instruction := m (registers s R_PC)) in *.
  set (s1 := mkMachine _ m (running s) h) in *.
  assert (Hpc1 : registers s1 R_PC = wrap16 (registers s R_PC + 1))
    by apply upd_same.
  assert (Hcond1 : registers s1 R_COND = registers s R_COND)
    by (apply upd_other; discriminate).
  split; [exact Hpc1 |].
  rewrite <- Hpc1.
  unfold VirtualMachine.handler, VirtualMachine.total in Hstep.
  repeat match type of Hstep with
    | context [Z.shiftr instruction 12 =? ?op] =>
        let Hop := fresh "Hop" in
        destruct (Z.eqb_spec (Z.shiftr instruction 12) op) as [Hop | Hop]
    end;
    try (injection Hstep as <-);
    try discriminate Hstep;
    try contradiction.
  - apply ADD_PC.
  - apply AND_PC.
  - apply NOT_PC.
  - rewrite BR_PC. rewrite Hcond1.
    destruct (negb (Z.land (Z.land (Z.shiftr instruction 9) 7)
                      (registers s R_COND) =? 0)); [| reflexivity].
    exfalso. apply Hbr. split; [assumption | reflexivity].
  - apply LD_PC.
  - apply LDI_PC.
  - apply LDR_PC.
  - apply LEA_PC.
  - apply ST_PC.
  - apply STI_PC.
  - apply STR_PC.
Qed.

Lemma step_PC_witness :
  let s := CPU.init (fun _ => 0) (upd (fun _ => 0) 0x3000 0x147F)
             (mkHost [] [] []) in
  exists s',
    VirtualMachine.step s = VirtualMachine.Continue s'
    /\ registers s' R_PC = 0x3001 /\ registers s' 2 = 0xFFFF
    /\ registers s' R_COND = FL_NEGATIVE.
Proof.
  intros s.
  destruct (VirtualMachine.step s) as [s' | s' |] eqn:E;
    try (vm_compute in E; discriminate E).
  exists s'. split; [reflexivity |].
  assert (Hbr : ~ branch_taken s).
  { intros [Hop _]. vm_compute in Hop. discriminate Hop. }
  destruct (step_PC s s' E Hbr) as [_ [_ [_ Hpc]]];
    try (vm_compute; discriminate).
  split; [rewrite Hpc; reflexivity |].
  vm_compute in E. injection E as <-. split; reflexivity.
Defined.

(** ** Illegal opcodes *)

Lemma fetched_u16 (s : Machine) :
  (forall a, is_u16 (memory s a)) -> is_u16 (fetched s).
Proof.
  intros Hm. unfold fetched, VirtualMachine.fetch. cbv zeta.
  apply Read_value_u16. exact Hm.
Qed.

Lemma opcode_range (s : Machine) :
  (forall a, is_u16 (memory s a)) -> 0 <= opcode s < 16.
Proof.
  intros Hm. pose proof (fetched_u16 s Hm) as Hf. unfold is_u16 in Hf.
  unfold opcode. rewrite Z.shiftr_div_pow2 by lia. change (2 ^ 12) with 4096.
  split; [apply Z.div_pos; lia | apply Z.div_lt_upper_bound; lia].
Qed.

Lemma handler_table (op : Z) :
  0 <= op < 16 ->
  (VirtualMachine.handler op = None <-> op = OP_RTI \/ op = OP_RES).
Proof.
  intros Hop.
  assert (Hcases : op = 0 \/ op = 1 \/ op = 2 \/ op = 3 \/ op = 4 \/ op = 5
                   \/ op = 6 \/ op = 7 \/ op = 8 \/ op = 9 \/ op = 10
                   \/ op = 11 \/ op = 12 \/ op = 13 \/ op = 14 \/ op = 15)
    by lia.
  unfold OP_RTI, OP_RES.
  repeat (destruct Hcases as [-> | Hcases]); try subst op;
    cbn; split; intros H; solve [discriminate H | lia | reflexivity].
Qed.

(** C6.  A fetched instruction whose opcode is 8 (RTI) or 13 (RES) has no
    handler: the step calls [abort()] with the machine as the fetch left
    it, and the loop does not go on.  Every other opcode has a handler,
    the step is that handler applied to the fetched instruction, it never
    aborts, and when the handler returns the loop goes on to its next
    turn.  (The opcode of a word of memory is always in 0..15.) *)
Theorem illegal_opcodes (s : Machine) :
  let s1 := snd (VirtualMachine.fetch s) in
  ((forall a, is_u16 (memory s a)) -> 0 <= opcode s < 16)
  /\ (opcode s = OP_RTI \/ opcode s = OP_RES ->
        VirtualMachine.handler (opcode s) = None
        /\ VirtualMachine.step s = VirtualMachine.Abort s1
        /\ forall fuel, running s <> 0 ->
             VirtualMachine.run (S fuel) s = VirtualMachine.Aborted s1)
  /\ (0 <= opcode s < 16 -> opcode s <> OP_RTI -> opcode s <> OP_RES ->
        exists h,
          VirtualMachine.handler (opcode s) = Some h
          /\ VirtualMachine.step s =
               match h (fetched s) s1 with
               | Some s2 => VirtualMachine.Continue s2
               | None => VirtualMachine.OutOfBounds
               end
          /\ (forall s2, VirtualMachine.step s <> VirtualMachine.Abort s2)
          /\ (opcode s <> OP_TRAP ->
                exists s2, VirtualMachine.step s = VirtualMachine.Continue s2)
          /\ (forall s2 fuel,
                running s <> 0 ->
                VirtualMachine.step s = VirtualMachine.Continue s2 ->
                VirtualMachine.run (S fuel) s = VirtualMachine.run fuel s2)).
Proof.
  intros s1.
  assert (Hstep : VirtualMachine.step s =
            match VirtualMachine.handler (opcode s) with
            | Some h =>
                match h (fetched s) s1 with
                | Some s2 => VirtualMachine.Continue s2
                | None => VirtualMachine.OutOfBounds
                end
            | None => VirtualMachine.Abort s1
            end).
  { unfold VirtualMachine.step, opcode, fetched, s1.
    destruct (VirtualMachine.fetch s) as [instruction s0]. reflexivity. }
  assert (Hrun : forall fuel, running s <> 0 ->
            VirtualMachine.run (S fuel) s =
            match VirtualMachine.step s with
            | VirtualMachine.Continue s' => VirtualMachine.run fuel s'
            | VirtualMachine.Abort s' => VirtualMachine.Aborted s'
            | VirtualMachine.OutOfBounds => VirtualMachine.Faulted
            end).
  { intros fuel Hr. cbn [VirtualMachine.run].
    destruct (Z.eqb_spec (running s) 0); [contradiction | reflexivity]. }
  split; [apply opcode_range |]. split.
  - intros Hop.
    assert (Hnone : VirtualMachine.handler (opcode s) = None)
      by (destruct Hop as [-> | ->]; reflexivity).
    split; [exact Hnone |].
    assert (Habort : VirtualMachine.step s = VirtualMachine.Abort s1)
      by (rewrite Hstep, Hnone; reflexivity).
    split; [exact Habort |].
    intros fuel Hr. rewrite Hrun by exact Hr. rewrite Habort. reflexivity.
  - intros Hrange Hrti Hres.
    destruct (VirtualMachine.handler (opcode s)) as [h |] eqn:Hh.
    + exists h. split; [reflexivity |]. split; [exact Hstep |]. split; [| split].
      * intros s2. rewrite Hstep. destruct (h (fetched s) s1); discriminate.
      * intros Htrap. rewrite Hstep.
        unfold VirtualMachine.handler, VirtualMachine.total in Hh.
        repeat match type of Hh with
          | context [opcode s =? ?op] =>
              let Hop := fresh "Hop" in
              destruct (Z.eqb_spec (opcode s) op) as [Hop | Hop]
          end;
          try contradiction; try discriminate Hh;
          injection Hh as <-; eexists; reflexivity.
      * intros s2 fuel Hr Hc. rewrite Hrun by exact Hr. rewrite Hc. reflexivity.
    + apply handler_table in Hh; [| exact Hrange].
      destruct Hh; contradiction.
Qed.

Lemma illegal_opcodes_witness :
  let rti := CPU.init (fun _ => 0) (upd (fun _ => 0) 0x3000 0x8000)
               (mkHost [] [] []) in
  let jmp := CPU.init (fun _ => 0) (upd (fun _ => 0) 0x3000 0xC1C0)
               (mkHost [] [] []) in
  VirtualMachine.run 5 rti
    = VirtualMachine.Aborted (snd (VirtualMachine.fetch rti))
  /\ exists s2, VirtualMachine.step jmp = VirtualMachine.Continue s2.
Proof.
  intros rti jmp. split.
  - destruct (illegal_opcodes rti) as [_ [Hbad _]].
    apply Hbad; [left; reflexivity | discriminate].
  - destruct (illegal_opcodes jmp) as [_ [_ Hgood]].
    assert (Hop : opcode jmp = 12) by reflexivity.
    rewrite Hop in Hgood.
    destruct Hgood as [h [_ [_ [_ [Hcont _]]]]].
    + lia.
    + discriminate.
    + discriminate.
    + apply Hcont. discriminate.
Defined.

(** ** Traps *)

(** C7.  A TRAP whose vector is none of 0x20..0x25 stores the program
    counter in R7 and does nothing else: the other registers, the memory,
    the run flag and the console (input and output) are as before, and
    the step returns to the loop. *)
Theorem Proxy_unknown_vector (instruction : Z) (s : Machine) :
  ~ In (Z.land instruction 0x00FF)
       [TRAP_GETC; TRAP_OUT; TRAP_PUTS; TRAP_IN; TRAP_PUTSP; TRAP_HALT] ->
  Trap.Proxy instruction s =
    Some (mkMachine (upd (registers s) R_7 (registers s R_PC))
            (memory s) (running s) (os s))
  /\ (forall s0,
        VirtualMachine.fetch s0 = (instruction, s) ->
        Z.shiftr instruction 12 = OP_TRAP ->
        VirtualMachine.step s0 =
          VirtualMachine.Continue
            (mkMachine (upd (registers s) R_7 (registers s R_PC))
               (memory s) (running s) (os s))).
Proof.
  intros Hv.
  assert (Hproxy : Trap.Proxy instruction s =
            Some (mkMachine (upd (registers s) R_7 (registers s R_PC))
                    (memory s) (running s) (os s))).
  { unfold Trap.Proxy. cbv zeta.
    repeat match goal with
      | |- context [Z.land instruction 255 =? ?v] =>
          let Hc := fresh "Hc" in
          destruct (Z.eqb_spec (Z.land instruction 255) v) as [Hc | Hc];
          [exfalso; apply Hv; rewrite Hc; simpl; tauto |]
      end.
    reflexivity. }
  split; [exact Hproxy |].
  intros s0 Hfetch Hop. unfold VirtualMachine.step.
  rewrite Hfetch. cbv beta iota zeta. rewrite Hop.
  change (VirtualMachine.handler OP_TRAP) with (Some Trap.Proxy).
  cbv beta iota. rewrite Hproxy. reflexivity.
Qed.

Lemma Proxy_unknown_vector_witness :
  let s := CPU.init (fun _ => 0) (fun _ => 0) (mkHost [] [] []) in
  Trap.Proxy 0xF026 s =
    Some (mkMachine (upd (registers s) R_7 0x3000) (memory s) 1 (os s)).
Proof.
  intros s.
  destruct (Proxy_unknown_vector 0xF026 s) as [H _].
  - vm_compute. intuition discriminate.
  - exact H.
Defined.

Lemma to_uchar_to_char (x : Z) : to_uchar (to_char x) = x mod 256.
Proof.
  unfold to_uchar, to_char. cbv zeta.
  pose proof (Z.mod_pos_bound x 256 ltac:(lia)) as Hy.
  destruct (Z.ltb_spec (x mod 256) 128).
  - apply Z.mod_small. lia.
  - replace (x mod 256 - 256) with (x mod 256 + (-1) * 256) by lia.
    rewrite Z.mod_add by lia. apply Z.mod_small. lia.
Qed.

Lemma to_char_eq_0 (x : Z) : (to_char x =? 0) = (x mod 256 =? 0).
Proof.
  unfold to_char. cbv zeta.
  pose proof (Z.mod_pos_bound x 256 ltac:(lia)) as Hy.
  destruct (Z.ltb_spec (x mod 256) 128); [reflexivity |].
  destruct (Z.eqb_spec (x mod 256 - 256) 0), (Z.eqb_spec (x mod 256) 0);
    solve [reflexivity | lia].
Qed.

Lemma u16_bytes (w : Z) :
  is_u16 w -> 0 <= Z.land w 0x00FF < 256 /\ 0 <= Z.shiftr w 8 < 256.
Proof.
  unfold is_u16. intros Hw. split.
  - change 255 with (Z.ones 8). rewrite Z.land_ones by lia.
    apply Z.mod_pos_bound. reflexivity.
  - rewrite Z.shiftr_div_pow2 by lia. change (2 ^ 8) with 256.
    split; [apply Z.div_pos; lia | apply Z.div_lt_upper_bound; lia].
Qed.

(** One turn of the loop of [PUTSP] on a non-zero word. *)
Lemma PUTSP_word (w : Z) (h : Host) :
  is_u16 w ->
  (if negb (to_char (Z.shiftr w 8) =? 0)
   then putc (to_char (Z.shiftr w 8)) (putc (to_char (Z.land w 0x00FF)) h)
   else putc (to_char (Z.land w 0x00FF)) h)
  = mkHost (keyhits h) (stdin h) (stdout h ++ PUTSP_bytes w).
Proof.
  intros Hw. destruct (u16_bytes w Hw) as [Hlo Hhi].
  unfold PUTSP_bytes. rewrite to_char_eq_0.
  rewrite (Z.mod_small (Z.shiftr w 8) 256) by exact Hhi.
  unfold putc. cbn [keyhits stdin stdout]. rewrite !to_uchar_to_char.
  rewrite (Z.mod_small (Z.land w 255) 256) by exact Hlo.
  destruct (Z.shiftr w 8 =? 0); cbn [negb].
  - reflexivity.
  - cbn [keyhits stdin stdout]. rewrite (Z.mod_small (Z.shiftr w 8) 256) by exact Hhi.
    rewrite <- app_assoc. reflexivity.
Qed.

Lemma PUTSP_loop_spec (mem : Z -> Z) (n : nat) :
  forall (room : nat) (c : Z) (h : Host),
    (n < room)%nat ->
    (forall i, 0 <= i < Z.of_nat n ->
               is_u16 (mem (c + i)) /\ mem (c + i) <> 0) ->
    mem (c + Z.of_nat n) = 0 ->
    Trap.PUTSP_loop room mem c h =
    Some (mkHost (keyhits h) (stdin h)
            (stdout h ++ flat_map PUTSP_bytes (words_from mem c n))).
Proof.
  induction n as [| n IH]; intros room c h Hroom Hwords Hzero.
  - destruct room as [| room]; [lia |].
    cbn [Trap.PUTSP_loop words_from flat_map].
    replace (c + Z.of_nat 0) with c in Hzero by lia.
    rewrite Hzero. cbn [Z.eqb negb]. rewrite app_nil_r.
    destruct h; reflexivity.
  - destruct room as [| room]; [lia |].
    cbn [Trap.PUTSP_loop words_from flat_map].
    destruct (Hwords 0 ltac:(lia)) as [Hu Hnz].
    replace (c + 0) with c in Hu, Hnz by lia.
    destruct (Z.eqb_spec (mem c) 0) as [Hz | _]; [contradiction |].
    cbn [negb]. cbv zeta. rewrite (PUTSP_word (mem c) h Hu).
    rewrite IH.
    + cbn [keyhits stdin stdout]. rewrite <- app_assoc. reflexivity.
    + lia.
    + intros i Hi. replace (c + 1 + i) with (c + (i + 1)) by lia.
      apply Hwords. lia.
    + replace (c + 1 + Z.of_nat n) with (c + Z.of_nat (S n)) by lia.
      exact Hzero.
Qed.

Lemma PUTSP_routine (s : Machine) (n : nat) :
  registers s R_0 + Z.of_nat n < MEMORY_MAX ->
  (forall i, 0 <= i < Z.of_nat n ->
             is_u16 (memory s (registers s R_0 + i))
             /\ memory s (registers s R_0 + i) <> 0) ->
  memory s (registers s R_0 + Z.of_nat n) = 0 ->
  Trap.PUTSP s =
    Some (mkMachine (registers s) (memory s) (running s)
            (mkHost (keyhits (os s)) (stdin (os s))
               (stdout (os s)
                ++ flat_map PUTSP_bytes
                     (words_from (memory s) (registers s R_0) n)
                ++ [Fflush]))).
Proof.
  intros Hend Hwords Hzero. unfold Trap.PUTSP. cbv zeta.
  rewrite (PUTSP_loop_spec (memory s) n); [| lia | exact Hwords | exact Hzero].
  unfold fflush, set_os. cbn [keyhits stdin stdout].
  rewrite <- app_assoc. reflexivity.
Qed.

(** C8.  Executing a TRAP whose vector is 0x24 (PUTSP): when the words
    of memory from [R0] on are non-zero up to a first zero word inside
    the memory, the trap writes, for each of the words before that zero
    word and in order, its low byte and then its high byte if that byte
    is not zero, and then flushes the output.  A word with one zero byte
    and one non-zero byte does not end the scan; only a zero word does.
    Besides R7, which receives the return address, registers, memory,
    the run flag and the console input are unchanged, and the step
    returns to the loop.  The routine [PUTSP] alone does the same without
    the write to R7. *)
Theorem PUTSP_output (instruction : Z) (s : Machine) (n : nat) :
  Z.land instruction 0x00FF = TRAP_PUTSP ->
  0 <= registers s R_0 ->
  registers s R_0 + Z.of_nat n < MEMORY_MAX ->
  (forall i, 0 <= i < Z.of_nat n ->
             is_u16 (memory s (registers s R_0 + i))
             /\ memory s (registers s R_0 + i) <> 0) ->
  memory s (registers s R_0 + Z.of_nat n) = 0 ->
  let console :=
    mkHost (keyhits (os s)) (stdin (os s))
      (stdout (os s)
       ++ flat_map PUTSP_bytes (words_from (memory s) (registers s R_0) n)
       ++ [Fflush]) in
  let after_trap :=
    mkMachine (upd (registers s) R_7 (registers s R_PC))
      (memory s) (running s) console in
  Trap.PUTSP s =
    Some (mkMachine (registers s) (memory s) (running s) console)
  /\ Trap.Proxy instruction s = Some after_trap
  /\ (forall s0,
        VirtualMachine.fetch s0 = (instruction, s) ->
        Z.shiftr instruction 12 = OP_TRAP ->
        VirtualMachine.step s0 = VirtualMachine.Continue after_trap).
Proof.
  intros Hv Hc Hend Hwords Hzero console after_trap.
  assert (Hroutine : Trap.PUTSP s =
            Some (mkMachine (registers s) (memory s) (running s) console))
    by (apply (PUTSP_routine s n); assumption).
  assert (Hproxy : Trap.Proxy instruction s = Some after_trap).
  { unfold Trap.Proxy. cbv zeta. rewrite Hv.
    cbn [Z.eqb Pos.eqb TRAP_GETC TRAP_OUT TRAP_PUTS TRAP_IN TRAP_PUTSP].
    assert (H0 : registers (set_register R_7 (registers s R_PC) s) R_0
                 = registers s R_0)
      by (cbn [registers set_register]; apply upd_other; discriminate).
    rewrite (PUTSP_routine (set_register R_7 (registers s R_PC) s) n);
      rewrite ?H0; cbn [memory set_register]; try assumption.
    reflexivity. }
  split; [exact Hroutine |]. split; [exact Hproxy |].
  intros s0 Hfetch Hop. unfold VirtualMachine.step.
  rewrite Hfetch. cbv beta iota zeta. rewrite Hop.
  change (VirtualMachine.handler OP_TRAP) with (Some Trap.Proxy).
  cbv beta iota. rewrite Hproxy. reflexivity.
Qed.

Lemma PUTSP_output_witness :
  let mem := upd (upd (upd (fun _ => 0) 0x3000 0xF024) 0x3100 0x4100)
                 0x3101 0x0042 in
  let s0 := mkMachine (upd (upd (fun _ => 0) R_PC 0x3000) R_0 0x3100) mem 1
              (mkHost [] [] []) in
  VirtualMachine.step s0 =
    VirtualMachine.Continue
      (mkMachine
         (upd (upd (registers s0) R_PC 0x3001) R_7 0x3001) mem 1
         (mkHost [] [] [Putc 0x00; Putc 0x41; Putc 0x42; Fflush])).
Proof.
  intros mem s0.
  set (s := mkMachine (upd (registers s0) R_PC 0x3001) mem 1 (mkHost [] [] [])).
  assert (Hfetch : VirtualMachine.fetch s0 = (0xF024, s)) by reflexivity.
  destruct (PUTSP_output 0xF024 s 2) as [_ [_ Hstep]].
  - reflexivity.
  - vm_compute. discriminate.
  - reflexivity.
  - intros i Hi.
    assert (Hcases : i = 0 \/ i = 1) by lia.
    destruct Hcases as [-> | ->]; vm_compute; intuition discriminate.
  - reflexivity.
  - apply (Hstep s0 Hfetch eq_refl).
Defined.

(** ** Condition codes after the flag-updating handlers *)

Lemma flag_after_write (DR v : Z) (s : Machine) :
  0 <= DR < 8 -> is_u16 v ->
  registers (CPU.UpdateFlags DR (set_register DR v s)) R_COND =
  sign_class (registers (CPU.UpdateFlags DR (set_register DR v s)) DR).
Proof.
  intros HDR Hv. destruct (write_and_flag DR v s HDR Hv) as [H1 H2].
  rewrite H1, H2. reflexivity.
Qed.

Section FlagHandlers.

Variables (instruction : Z) (s : Machine).
Hypothesis Hmem : forall a, is_u16 (memory s a).

Lemma ADD_flags :
  registers (ArithmeticLogicUnit.ADD instruction s) R_COND =
  sign_class (registers (ArithmeticLogicUnit.ADD instruction s)
                (DR_field instruction)).
Proof.
  unfold ArithmeticLogicUnit.ADD. cbv zeta. fold (DR_field instruction).
  destruct (negb (Z.land (Z.shiftr instruction 5) 1 =? 0));
    apply flag_after_write; solve [apply DR_field_range | apply wrap16_range].
Qed.

Lemma AND_flags :
  registers (ArithmeticLogicUnit.AND instruction s) R_COND =
  sign_class (registers (ArithmeticLogicUnit.AND instruction s)
                (DR_field instruction)).
Proof.
  unfold ArithmeticLogicUnit.AND. cbv zeta. fold (DR_field instruction).
  destruct (negb (Z.land (Z.shiftr instruction 5) 1 =? 0));
    apply flag_after_write; solve [apply DR_field_range | apply wrap16_range].
Qed.

Lemma NOT_flags :
  registers (ArithmeticLogicUnit.NOT instruction s) R_COND =
  sign_class (registers (ArithmeticLogicUnit.NOT instruction s)
                (DR_field instruction)).
Proof.
  unfold ArithmeticLogicUnit.NOT. cbv zeta. fold (DR_field instruction).
  apply flag_after_write; solve [apply DR_field_range | apply wrap16_range].
Qed.

Lemma LEA_flags :
  registers (ArithmeticLogicUnit.LEA instruction s) R_COND =
  sign_class (registers (ArithmeticLogicUnit.LEA instruction s)
                (DR_field instruction)).
Proof.
  unfold ArithmeticLogicUnit.LEA. cbv zeta. fold (DR_field instruction).
  apply flag_after_write; solve [apply DR_field_range | apply wrap16_range].
Qed.

Lemma LD_flags :
  registers (ArithmeticLogicUnit.LD instruction s) R_COND =
  sign_class (registers (ArithmeticLogicUnit.LD instruction s)
                (DR_field instruction)).
Proof.
  unfold ArithmeticLogicUnit.LD. cbv zeta. fold (DR_field instruction).
  expose_reads.
  apply flag_after_write; [apply DR_field_range | auto].
Qed.

Lemma LDR_flags :
  registers (ArithmeticLogicUnit.LDR instruction s) R_COND =
  sign_class (registers (ArithmeticLogicUnit.LDR instruction s)
                (DR_field instruction)).
Proof.
  unfold ArithmeticLogicUnit.LDR. cbv zeta. fold (DR_field instruction).
  expose_reads.
  apply flag_after_write; [apply DR_field_range | auto].
Qed.

Lemma LDI_flags :
  registers (ArithmeticLogicUnit.LDI instruction s) R_COND =
  sign_class (registers (ArithmeticLogicUnit.LDI instruction s)
                (DR_field instruction)).
Proof.
  unfold ArithmeticLogicUnit.LDI. cbv zeta. fold (DR_field instruction).
  expose_reads.
  apply flag_after_write; [apply DR_field_range | auto].
Qed.

Lemma GETC_flags :
  registers (Trap.GETC s) R_COND = sign_class (registers (Trap.GETC s) R_0).
Proof.
  unfold Trap.GETC. destruct (getchar (os s)) as [c h].
  apply flag_after_write; [unfold R_0; lia | apply wrap16_range].
Qed.

Lemma INC_flags :
  registers (Trap.INC s) R_COND = sign_class (registers (Trap.INC s) R_0).
Proof.
  unfold Trap.INC. cbv zeta.
  destruct (getchar (printf "Enter a character: " (os s))) as [g h1].
  apply flag_after_write; [unfold R_0; lia | apply wrap16_range].
Qed.

End FlagHandlers.

(** ** What every reachable machine satisfies *)

Lemma flag_u16 (f : Z) : In f [1; 2; 4] -> is_u16 f.
Proof.
  unfold is_u16. simpl. intros [<- | [<- | [<- | []]]]; lia.
Qed.

Ltac split_ifs :=
  repeat match goal with
    | |- context [if ?b then _ else _] => destruct b
    end.

Ltac u16_tac :=
  first [ apply wrap16_range
        | apply flag_u16; assumption
        | solve [auto] ].

Ltac ok_parts :=
  split;
  [ let r := fresh "r" in intros r; unfold upd; split_ifs; u16_tac
  | split;
    [ let a := fresh "a" in intros a; unfold upd; split_ifs; u16_tac
    | rewrite ?upd_same; rewrite ?upd_other by reg_neq;
      first [ assumption | solve [simpl; auto] ] ] ].

Ltac ok_tac :=
  cbv zeta; expose_reads; split_ifs; expose_flags;
  unfold machine_ok; machine_simpl; ok_parts.

Section HandlersKeepOk.

Variables (instruction : Z) (s : Machine).
Hypothesis Hok : machine_ok s.

Let Hregs : forall r, is_u16 (registers s r) := proj1 Hok.
Let Hmem : forall a, is_u16 (memory s a) := proj1 (proj2 Hok).
Let Hcond : In (registers s R_COND) [1; 2; 4] := proj2 (proj2 Hok).

Lemma ADD_ok : machine_ok (ArithmeticLogicUnit.ADD instruction s).
Proof. unfold ArithmeticLogicUnit.ADD. ok_tac. Qed.

Lemma AND_ok : machine_ok (ArithmeticLogicUnit.AND instruction s).
Proof. unfold ArithmeticLogicUnit.AND. ok_tac. Qed.

Lemma NOT_ok : machine_ok (ArithmeticLogicUnit.NOT instruction s).
Proof. unfold ArithmeticLogicUnit.NOT. ok_tac. Qed.

Lemma BR_ok : machine_ok (ArithmeticLogicUnit.BR instruction s).
Proof. unfold ArithmeticLogicUnit.BR. ok_tac. Qed.

Lemma JMP_ok : machine_ok (ArithmeticLogicUnit.JMP instruction s).
Proof. unfold ArithmeticLogicUnit.JMP. ok_tac. Qed.

Lemma JSR_ok : machine_ok (ArithmeticLogicUnit.JSR instruction s).
Proof. unfold ArithmeticLogicUnit.JSR. ok_tac. Qed.

Lemma LD_ok : machine_ok (ArithmeticLogicUnit.LD instruction s).
Proof. unfold ArithmeticLogicUnit.LD. ok_tac. Qed.

Lemma LDI_ok : machine_ok (ArithmeticLogicUnit.LDI instruction s).
Proof. unfold ArithmeticLogicUnit.LDI. ok_tac. Qed.

Lemma LDR_ok : machine_ok (ArithmeticLogicUnit.LDR instruction s).
Proof. unfold ArithmeticLogicUnit.LDR. ok_tac. Qed.

Lemma LEA_ok : machine_ok (ArithmeticLogicUnit.LEA instruction s).
Proof. unfold ArithmeticLogicUnit.LEA. ok_tac. Qed.

Lemma ST_ok : machine_ok (ArithmeticLogicUnit.ST instruction s).
Proof. unfold ArithmeticLogicUnit.ST, MemoryIO.Write. ok_tac. Qed.

Lemma STI_ok : machine_ok (ArithmeticLogicUnit.STI instruction s).
Proof. unfold ArithmeticLogicUnit.STI, MemoryIO.Write. ok_tac. Qed.

Lemma STR_ok : machine_ok (ArithmeticLogicUnit.STR instruction s).
Proof. unfold ArithmeticLogicUnit.STR, MemoryIO.Write. ok_tac. Qed.

End HandlersKeepOk.

Section TrapsKeepOk.

Variable s : Machine.
Hypothesis Hok : machine_ok s.

Let Hregs : forall r, is_u16 (registers s r) := proj1 Hok.
Let Hmem : forall a, is_u16 (memory s a) := proj1 (proj2 Hok).
Let Hcond : In (registers s R_COND) [1; 2; 4] := proj2 (proj2 Hok).

Lemma set_os_ok (h : Host) : machine_ok (set_os h s).
Proof. exact Hok. Qed.

Lemma save_return_ok : machine_ok (set_register R_7 (registers s R_PC) s).
Proof. ok_tac. Qed.

Lemma GETC_ok : machine_ok (Trap.GETC s).
Proof. unfold Trap.GETC. destruct (getchar (os s)) as [c h]. ok_tac. Qed.

Lemma OUTC_ok : machine_ok (Trap.OUTC s).
Proof. apply set_os_ok. Qed.

Lemma PUTS_ok (s' : Machine) : Trap.PUTS s = Some s' -> machine_ok s'.
Proof.
  unfold Trap.PUTS. cbv zeta.
  destruct (Trap.PUTS_loop _ _ _ _) as [h |]; [| discriminate].
  intros H. injection H as <-. apply set_os_ok.
Qed.

Lemma INC_ok : machine_ok (Trap.INC s).
Proof.
  unfold Trap.INC. cbv zeta.
  destruct (getchar (printf "Enter a character: " (os s))) as [g h1]. ok_tac.
Qed.

Lemma PUTSP_ok (s' : Machine) : Trap.PUTSP s = Some s' -> machine_ok s'.
Proof.
  unfold Trap.PUTSP. cbv zeta.
  destruct (Trap.PUTSP_loop _ _ _ _) as [h |]; [| discriminate].
  intros H. injection H as <-. apply set_os_ok.
Qed.

Lemma HALT_ok : machine_ok (Trap.HALT s).
Proof. exact Hok. Qed.

End TrapsKeepOk.

Lemma Proxy_ok (instruction : Z) (s s' : Machine) :
  machine_ok s -> Trap.Proxy instruction s = Some s' -> machine_ok s'.
Proof.
  intros Hok. pose proof (save_return_ok s Hok) as Hok1.
  unfold Trap.Proxy. cbv zeta.
  repeat match goal with
    | |- context [Z.land instruction 255 =? ?v] =>
        destruct (Z.land instruction 255 =? v)
    end;
    intros H; try (injection H as <-).
  - apply GETC_ok. exact Hok1.
  - apply OUTC_ok. exact Hok1.
  - apply (PUTS_ok _ Hok1 _ H).
  - apply INC_ok. exact Hok1.
  - apply (PUTSP_ok _ Hok1 _ H).
  - apply HALT_ok. exact Hok1.
  - exact Hok1.
Qed.

Lemma fetch_ok (s : Machine) :
  machine_ok s -> machine_ok (snd (VirtualMachine.fetch s)).
Proof.
  intros [Hregs [Hmem Hcond]].
  unfold VirtualMachine.fetch. ok_tac.
Qed.

Lemma step_ok (s s' : Machine) :
  machine_ok s ->
  VirtualMachine.step s = VirtualMachine.Continue s' ->
  machine_ok s'.
Proof.
  intros Hok Hstep. pose proof (fetch_ok s Hok) as Hok1.
  unfold VirtualMachine.step in Hstep.
  destruct (VirtualMachine.fetch s) as [instruction s1]. cbn [snd] in Hok1.
  cbv zeta in Hstep.
  unfold VirtualMachine.handler, VirtualMachine.total in Hstep.
  repeat match type of Hstep with
    | context [Z.shiftr instruction 12 =? ?op] =>
        destruct (Z.shiftr instruction 12 =? op)
    end;
    try discriminate Hstep.
  14: { destruct (Trap.Proxy instruction s1) as [s2 |] eqn:Hp;
          [| discriminate Hstep].
        injection Hstep as <-. apply (Proxy_ok instruction s1 s2 Hok1 Hp). }
  all: injection Hstep as <-.
  - apply ADD_ok; exact Hok1.
  - apply AND_ok; exact Hok1.
  - apply NOT_ok; exact Hok1.
  - apply BR_ok; exact Hok1.
  - apply JMP_ok; exact Hok1.
  - apply JSR_ok; exact Hok1.
  - apply LD_ok; exact Hok1.
  - apply LDI_ok; exact Hok1.
  - apply LDR_ok; exact Hok1.
  - apply LEA_ok; exact Hok1.
  - apply ST_ok; exact Hok1.
  - apply STI_ok; exact Hok1.
  - apply STR_ok; exact Hok1.
Qed.

Lemma fread_u16 (bo : byte_order) (count : nat) :
  forall (file : list ascii) (mem mem' : Z -> Z) (p : Z) (k : nat),
    (forall a, is_u16 (mem a)) ->
    fread bo count file mem p = Some (mem', k) ->
    forall a, is_u16 (mem' a).
Proof.
  induction count as [| count IH]; intros file mem mem' p k Hmem Hread.
  - cbn [fread] in Hread. injection Hread as <- _. exact Hmem.
  - cbn [fread] in Hread.
    destruct file as [| b0 [| b1 rest]];
      [injection Hread as <- _; exact Hmem | |].
    + injection Hread as <- _.
      intros a. unfold upd. destruct (a =? p); [| apply Hmem].
      pose proof (byte_val_range b0) as Hb. pose proof (Hmem p) as Hold.
      unfold is_u16 in *. unfold partial_word.
      pose proof (Z.mod_pos_bound (mem p) 256 ltac:(lia)) as Hlo.
      assert (Hhi : 0 <= mem p / 256 < 256)
        by (split; [apply Z.div_pos; lia | apply Z.div_lt_upper_bound; lia]).
      destruct bo; lia.
    + destruct (fread bo count rest _ (p + 1)) as [[mem1 k1] |] eqn:E;
        [| discriminate Hread].
      injection Hread as <- _.
      refine (IH _ _ _ _ _ _ E).
      intros a. unfold upd. destruct (a =? p); [| apply Hmem].
      pose proof (byte_val_range b0). pose proof (byte_val_range b1).
      unfold is_u16, word_of_bytes. destruct bo; lia.
Qed.

Lemma ReadImageFile_u16 (bo : byte_order) (file : list ascii)
    (mem mem' : Z -> Z) :
  (forall a, is_u16 (mem a)) ->
  CPU.ReadImageFile bo file mem = Some mem' ->
  forall a, is_u16 (mem' a).
Proof.
  intros Hmem Hload. unfold CPU.ReadImageFile in Hload.
  destruct file as [| b0 [| b1 rest]]; try discriminate Hload.
  cbv zeta in Hload.
  destruct (fread bo _ rest mem _) as [[mem1 k] |] eqn:E; [| discriminate Hload].
  injection Hload as <-. intros a. rewrite swap_words_spec.
  destruct (_ && _); [apply wrap16_range |].
  apply (fread_u16 _ _ _ _ _ _ _ Hmem E).
Qed.

Lemma init_ok (registers0 memory0 : Z -> Z) (h : Host) :
  (forall r, is_u16 (registers0 r)) ->
  (forall a, is_u16 (memory0 a)) ->
  machine_ok (CPU.init registers0 memory0 h).
Proof.
  intros Hregs Hmem. unfold CPU.init, machine_ok. machine_simpl.
  split; [| split].
  - intros r. unfold upd.
    destruct (r =? R_PC); [unfold is_u16, PC_START; lia |].
    destruct (r =? R_COND); [unfold is_u16; cbn; lia | apply Hregs].
  - exact Hmem.
  - cbn. auto.
Qed.

Lemma reachable_ok (s : Machine) :
  VirtualMachine.reachable s -> machine_ok s.
Proof.
  induction 1 as [registers0 memory0 h Hregs Hmem
                 | bo file s s' _ IH Hload
                 | s s' _ IH _ Hstep].
  - apply init_ok; assumption.
  - unfold CPU.ReadImage in Hload.
    destruct (CPU.ReadImageFile bo file (memory s)) as [mem' |] eqn:E;
      [| discriminate Hload].
    injection Hload as <-.
    destruct IH as [Hregs [Hmem Hcond]].
    split; [exact Hregs |]. split; [| exact Hcond].
    apply (ReadImageFile_u16 bo file (memory s) mem' Hmem E).
  - apply (step_ok s s' IH Hstep).
Qed.

Lemma UpdateFlags_spec (DR : Z) (s : Machine) :
  DR <> R_COND -> is_u16 (registers s DR) ->
  registers (CPU.UpdateFlags DR s) R_COND = sign_class (registers s DR)
  /\ registers (CPU.UpdateFlags DR s) DR = registers s DR
  /\ In (registers (CPU.UpdateFlags DR s) R_COND) [1; 2; 4].
Proof.
  intros HDR Hv. rewrite UpdateFlags_registers by exact Hv.
  rewrite upd_same, upd_other by exact HDR.
  split; [reflexivity |]. split; [reflexivity | apply sign_class_one_hot].
Qed.

Lemma step_flags (s s' : Machine) :
  (forall a, is_u16 (memory s a)) ->
  VirtualMachine.step s = VirtualMachine.Continue s' ->
  In (opcode s) [OP_ADD; OP_AND; OP_NOT; OP_LD; OP_LDR; OP_LDI; OP_LEA] ->
  registers s' R_COND = sign_class (registers s' (DR_field (fetched s))).
Proof.
  intros Hmem Hstep Hop.
  assert (Hmem1 : forall a, is_u16 (memory (snd (VirtualMachine.fetch s)) a)).
  { unfold VirtualMachine.fetch. cbv zeta. apply Read_value_u16. exact Hmem. }
  unfold opcode, fetched in *. unfold VirtualMachine.step in Hstep.
  destruct (VirtualMachine.fetch s) as [instruction s1].
  cbn [fst snd] in *. cbv zeta in Hstep.
  cbn [In] in Hop.
  destruct Hop as [Hop | [Hop | [Hop | [Hop | [Hop | [Hop | [Hop | []]]]]]]];
    rewrite <- Hop in Hstep; cbn in Hstep; injection Hstep as <-.
  - apply ADD_flags.
  - apply AND_flags.
  - apply NOT_flags.
  - apply LD_flags. exact Hmem1.
  - apply LDR_flags. exact Hmem1.
  - apply LDI_flags. exact Hmem1.
  - apply LEA_flags.
Qed.

Lemma step_trap_flags (s s' : Machine) :
  VirtualMachine.step s = VirtualMachine.Continue s' ->
  opcode s = OP_TRAP ->
  In (Z.land (fetched s) 0x00FF) [TRAP_GETC; TRAP_IN] ->
  registers s' R_COND = sign_class (registers s' R_0).
Proof.
  intros Hstep Hop Hvec.
  unfold opcode, fetched in *. unfold VirtualMachine.step in Hstep.
  destruct (VirtualMachine.fetch s) as [instruction s1].
  cbn [fst snd] in *. cbv zeta in Hstep.
  rewrite Hop in Hstep.
  change (VirtualMachine.handler OP_TRAP) with (Some Trap.Proxy) in Hstep.
  cbv beta iota in Hstep. unfold Trap.Proxy in Hstep. cbv zeta in Hstep.
  cbn [In] in Hvec. destruct Hvec as [Hvec | [Hvec | []]];
    rewrite <- Hvec in Hstep; cbn [Z.eqb Pos.eqb TRAP_GETC TRAP_IN TRAP_OUT TRAP_PUTS]
      in Hstep;
    injection Hstep as <-.
  - apply GETC_flags.
  - apply INC_flags.
Qed.

(** C3.  [UpdateFlags] sets the condition register to exactly one of 1,
    2 and 4: 2 (Z) when the register it looks at holds zero, 4 (N) when
    bit 15 of that register is one, 1 (P) otherwise.  From every
    reachable state, a step whose instruction is ADD, AND, NOT, LD, LDR,
    LDI or LEA leaves in the condition register the flag of the value it
    has just written to its destination register, and so do the traps
    GETC and IN for R0.  The condition register holds one of 1, 2 and 4
    in every reachable state, so flags of different instructions are
    never combined. *)
Theorem condition_codes :
  (forall (m : Machine) (DR : Z),
      DR <> R_COND -> is_u16 (registers m DR) ->
      registers (CPU.UpdateFlags DR m) R_COND = sign_class (registers m DR)
      /\ registers (CPU.UpdateFlags DR m) DR = registers m DR
      /\ In (registers (CPU.UpdateFlags DR m) R_COND) [1; 2; 4])
  /\ (forall s : Machine,
      VirtualMachine.reachable s ->
      In (registers s R_COND) [1; 2; 4]
      /\ (forall s',
            VirtualMachine.step s = VirtualMachine.Continue s' ->
            In (opcode s)
               [OP_ADD; OP_AND; OP_NOT; OP_LD; OP_LDR; OP_LDI; OP_LEA] ->
            registers s' R_COND
            = sign_class (registers s' (DR_field (fetched s))))
      /\ (forall s',
            VirtualMachine.step s = VirtualMachine.Continue s' ->
            opcode s = OP_TRAP ->
            In (Z.land (fetched s) 0x00FF) [TRAP_GETC; TRAP_IN] ->
            registers s' R_COND = sign_class (registers s' R_0))).
Proof.
  split.
  - intros m DR HDR Hv. apply UpdateFlags_spec; assumption.
  - intros s Hreach. destruct (reachable_ok s Hreach) as [Hregs [Hmem Hcond]].
    split; [exact Hcond |]. split.
    + intros s' Hstep Hop. apply (step_flags s s' Hmem Hstep Hop).
    + intros s' Hstep Hop Hvec. apply (step_trap_flags s s' Hstep Hop Hvec).
Qed.

Lemma condition_codes_witness :
  let s := CPU.init (fun _ => 0) (upd (fun _ => 0) 0x3000 0x147F)
             (mkHost [] [] []) in
  VirtualMachine.reachable s
  /\ In (registers s R_COND) [1; 2; 4]
  /\ exists s',
       VirtualMachine.step s = VirtualMachine.Continue s'
       /\ registers s' 2 = 0xFFFF
       /\ registers s' R_COND = 4.
Proof.
  intros s.
  assert (Hreach : VirtualMachine.reachable s).
  { apply VirtualMachine.reach_init; intros x; unfold is_u16, upd.
    - lia.
    - destruct (x =? 12288); lia. }
  destruct condition_codes as [_ Hall].
  destruct (Hall s Hreach) as [Hcond [Hflags _]].
  split; [exact Hreach |]. split; [exact Hcond |].
  destruct (VirtualMachine.step s) as [s' | s' |] eqn:E;
    try (vm_compute in E; discriminate E).
  exists s'. split; [reflexivity |].
  assert (Hop : In (opcode s)
                  [OP_ADD; OP_AND; OP_NOT; OP_LD; OP_LDR; OP_LDI; OP_LEA])
    by (left; reflexivity).
  pose proof (Hflags s' eq_refl Hop) as Hf.
  assert (Hr2 : registers s' 2 = 0xFFFF).
  { vm_compute in E. injection E as <-. reflexivity. }
  split; [exact Hr2 |].
  rewrite Hf. change (DR_field (fetched s)) with 2. rewrite Hr2. reflexivity.
Defined.

(** * Further properties of the code *)

(** ** Byte swap and signed offsets *)

Lemma Swap16_u16 (x : Z) :
  is_u16 x -> Swap16 x = 256 * (x mod 256) + x / 256.
Proof.
  unfold is_u16. intros Hx.
  pose proof (Z.mod_pos_bound x 256 ltac:(lia)) as Hlo.
  assert (Hhi : 0 <= x / 256 < 256)
    by (split; [apply Z.div_pos; lia | apply Z.div_lt_upper_bound; lia]).
  rewrite (Z.div_mod x 256) at 1 by lia.
  replace (256 * (x / 256) + x mod 256) with (x mod 256 + 256 * (x / 256)) by lia.
  apply Swap16_bytes; assumption.
Qed.

(** X1.  [Swap16] exchanges the two bytes of a 16-bit word: the result
    is a 16-bit word, and swapping twice gives the word back. *)
Theorem Swap16_involutive (x : Z) :
  is_u16 x ->
  is_u16 (Swap16 x)
  /\ Swap16 x mod 256 = x / 256
  /\ Swap16 x / 256 = x mod 256
  /\ Swap16 (Swap16 x) = x.
Proof.
  intros Hx. pose proof Hx as Hx'. unfold is_u16 in Hx'.
  pose proof (Z.mod_pos_bound x 256 ltac:(lia)) as Hlo.
  assert (Hhi : 0 <= x / 256 < 256)
    by (split; [apply Z.div_pos; lia | apply Z.div_lt_upper_bound; lia]).
  assert (Hs : Swap16 x = 256 * (x mod 256) + x / 256) by (apply Swap16_u16; exact Hx).
  assert (Hm : Swap16 x mod 256 = x / 256).
  { rewrite Hs. replace (256 * (x mod 256) + x / 256)
      with (x / 256 + (x mod 256) * 256) by lia.
    rewrite Z.mod_add by lia. apply Z.mod_small. exact Hhi. }
  assert (Hd : Swap16 x / 256 = x mod 256).
  { rewrite Hs. symmetry.
    apply (Z.div_unique (256 * (x mod 256) + x / 256) 256 (x mod 256) (x / 256));
      lia. }
  assert (Hu : is_u16 (Swap16 x)) by (unfold Swap16; apply wrap16_range).
  split; [exact Hu |]. split; [exact Hm |]. split; [exact Hd |].
  rewrite (Swap16_u16 (Swap16 x) Hu), Hm, Hd.
  rewrite (Z.div_mod x 256) at 3 by lia. lia.
Qed.

Lemma Swap16_involutive_witness : Swap16 (Swap16 0x1234) = 0x1234.
Proof.
  apply (Swap16_involutive 0x1234). unfold is_u16. lia.
Defined.

Lemma SignExtend_as_signed (x w : Z) :
  0 < w <= 16 -> 0 <= x < 2 ^ w ->
  SignExtend x w = wrap16 (signed_field w x).
Proof.
  intros Hw Hx. destruct (field_bounds w Hw) as [Hpos [Hsplit Hle]].
  rewrite SignExtend_value by assumption.
  unfold signed_field, wrap16. cbv zeta.
  rewrite (Z.mod_small x (2 ^ w)) by lia.
  destruct (Z.ltb_spec x (2 ^ (w - 1))).
  - symmetry. apply Z.mod_small. lia.
  - replace (x - 2 ^ w) with (x + (65536 - 2 ^ w) + (-1) * 65536) by lia.
    rewrite Z.mod_add by lia. symmetry. apply Z.mod_small. lia.
Qed.

Lemma field_as_signed (instruction w : Z) :
  0 < w <= 16 ->
  SignExtend (Z.land instruction (Z.ones w)) w
  = wrap16 (signed_field w instruction).
Proof.
  intros Hw. rewrite Z.land_ones by lia.
  assert (Hp : 0 < 2 ^ w) by (apply Z.pow_pos_nonneg; lia).
  rewrite SignExtend_as_signed;
    [| exact Hw | apply Z.mod_pos_bound; exact Hp].
  unfold signed_field. cbv zeta. rewrite Z.mod_mod by lia. reflexivity.
Qed.

Lemma wrap16_add_field (a instruction w : Z) :
  0 < w <= 16 ->
  wrap16 (a + SignExtend (Z.land instruction (Z.ones w)) w)
  = wrap16 (a + signed_field w instruction).
Proof.
  intros Hw. rewrite field_as_signed by exact Hw.
  unfold wrap16. apply Z.add_mod_idemp_r. lia.
Qed.

(** X2.  Adding a sign-extended field of an instruction modulo 2^16 is
    adding the field read as a signed number: this is how the immediate
    of ADD and every PC- or base-relative offset enter the arithmetic. *)
Theorem signed_offset_arithmetic (a instruction w : Z) :
  In w [5; 6; 9; 11] ->
  signed_field w instruction
    = (if Z.testbit instruction (w - 1)
       then instruction mod 2 ^ w - 2 ^ w else instruction mod 2 ^ w)
  /\ - 2 ^ (w - 1) <= signed_field w instruction < 2 ^ (w - 1)
  /\ wrap16 (a + SignExtend (Z.land instruction (Z.ones w)) w)
     = wrap16 (a + signed_field w instruction).
Proof.
  intros Hw.
  assert (Hw' : 0 < w <= 16) by (simpl in Hw; lia).
  destruct (field_bounds w Hw') as [Hpos [Hsplit Hle]].
  assert (Hp : 0 < 2 ^ w) by lia.
  pose proof (Z.mod_pos_bound instruction (2 ^ w) Hp) as Hm.
  assert (Hbit : Z.testbit instruction (w - 1)
                 = negb (instruction mod 2 ^ w <? 2 ^ (w - 1))).
  { rewrite <- (Z.mod_pow2_bits_low instruction w (w - 1)) by lia.
    rewrite Z.testbit_eqb by lia.
    destruct (Z.ltb_spec (instruction mod 2 ^ w) (2 ^ (w - 1))).
    - rewrite Z.div_small by lia. reflexivity.
    - replace (instruction mod 2 ^ w / 2 ^ (w - 1)) with 1; [reflexivity |].
      apply (Z.div_unique _ (2 ^ (w - 1)) 1
               (instruction mod 2 ^ w - 2 ^ (w - 1))); lia. }
  split; [| split].
  - unfold signed_field. cbv zeta. rewrite Hbit.
    destruct (instruction mod 2 ^ w <? 2 ^ (w - 1)); reflexivity.
  - unfold signed_field. cbv zeta.
    destruct (Z.ltb_spec (instruction mod 2 ^ w) (2 ^ (w - 1))); lia.
  - apply wrap16_add_field. exact Hw'.
Qed.

Lemma signed_offset_arithmetic_witness :
  wrap16 (0xFFFE + SignExtend (Z.land 0x6C84 (Z.ones 6)) 6) = 0x0002
  /\ wrap16 (0x3001 + SignExtend (Z.land 0x0FFF (Z.ones 9)) 9) = 0x3000.
Proof.
  split.
  - destruct (signed_offset_arithmetic 0xFFFE 0x6C84 6) as [_ [_ H]];
      [simpl; auto |]. rewrite H. reflexivity.
  - destruct (signed_offset_arithmetic 0x3001 0x0FFF 9) as [_ [_ H]];
      [simpl; auto |]. rewrite H. reflexivity.
Defined.

(** ** The arithmetic and logic handlers *)

Lemma bit_field (instruction n : Z) :
  0 <= n ->
  negb (Z.land (Z.shiftr instruction n) 1 =? 0) = Z.testbit instruction n.
Proof.
  intros Hn. rewrite land_1_mod, <- Z.bit0_mod, Z.shiftr_spec by lia.
  replace (0 + n) with n by lia.
  destruct (Z.testbit instruction n); reflexivity.
Qed.

Lemma UpdateFlags_write (DR v : Z) (s : Machine) :
  0 <= DR < 8 -> is_u16 v ->
  CPU.UpdateFlags DR (set_register DR v s) = write_with_flags DR v s.
Proof.
  intros HDR Hv. unfold CPU.UpdateFlags, write_with_flags, sign_class.
  cbn [registers set_register]. rewrite upd_same.
  rewrite <- (bit15_shift v Hv).
  destruct (v =? 0); [reflexivity |].
  destruct (Z.shiftr v 15 =? 1); reflexivity.
Qed.

Lemma wrap16_land (a b : Z) : is_u16 a -> wrap16 (Z.land a b) = Z.land a b.
Proof.
  intros Ha. unfold wrap16. change 65536 with (2 ^ 16).
  rewrite <- Z.land_ones by lia.
  rewrite <- Z.land_assoc, (Z.land_comm b), Z.land_assoc.
  rewrite (Z.land_ones a) by lia. rewrite Z.mod_small by exact Ha.
  reflexivity.
Qed.

Lemma wrap16_lnot (x : Z) : is_u16 x -> wrap16 (Z.lnot x) = 65535 - x.
Proof.
  unfold is_u16, wrap16. intros Hx.
  replace (Z.lnot x) with (65535 - x + (-1) * 65536)
    by (unfold Z.lnot; lia).
  rewrite Z.mod_add by lia. apply Z.mod_small. lia.
Qed.

(** X3.  ADD writes to DR the sum, modulo 2^16, of SR1 and either the
    signed 5-bit immediate (bit 5 set) or SR2, sets the flags on the sum,
    and changes nothing else. *)
Theorem ADD_semantics (instruction : Z) (s : Machine) :
  ArithmeticLogicUnit.ADD instruction s =
  write_with_flags (DR_field instruction)
    (wrap16 (registers s (SR1_field instruction)
             + (if Z.testbit instruction 5
                then signed_field 5 instruction
                else registers s (SR2_field instruction))))
    s.
Proof.
  unfold ArithmeticLogicUnit.ADD. cbv zeta.
  rewrite bit_field by lia.
  fold (DR_field instruction) (SR1_field instruction) (SR2_field instruction).
  destruct (Z.testbit instruction 5).
  - change 31 with (Z.ones 5). rewrite wrap16_add_field by lia.
    apply UpdateFlags_write; [apply DR_field_range | apply wrap16_range].
  - apply UpdateFlags_write; [apply DR_field_range | apply wrap16_range].
Qed.

(** X4.  On 16-bit registers AND writes to DR the bitwise and of SR1 and
    either the sign-extended 5-bit immediate or SR2, sets the flags on
    it, and changes nothing else. *)
Theorem AND_semantics (instruction : Z) (s : Machine) :
  (forall r, is_u16 (registers s r)) ->
  ArithmeticLogicUnit.AND instruction s =
  write_with_flags (DR_field instruction)
    (Z.land (registers s (SR1_field instruction))
            (if Z.testbit instruction 5
             then wrap16 (signed_field 5 instruction)
             else registers s (SR2_field instruction)))
    s.
Proof.
  intros Hregs. unfold ArithmeticLogicUnit.AND. cbv zeta.
  rewrite bit_field by lia.
  fold (DR_field instruction) (SR1_field instruction) (SR2_field instruction).
  destruct (Z.testbit instruction 5).
  - change 31 with (Z.ones 5). rewrite field_as_signed by lia.
    rewrite wrap16_land by apply Hregs.
    apply UpdateFlags_write; [apply DR_field_range |].
    rewrite <- wrap16_land by apply Hregs. apply wrap16_range.
  - rewrite wrap16_land by apply Hregs.
    apply UpdateFlags_write; [apply DR_field_range |].
    rewrite <- wrap16_land by apply Hregs. apply wrap16_range.
Qed.

Lemma AND_semantics_witness :
  let s := mkMachine (upd (upd (fun _ => 0) 3 0x00FF) 4 0x0F0F)
             (fun _ => 0) 1 (mkHost [] [] []) in
  registers (ArithmeticLogicUnit.AND 0x5AC4 s) 5 = 0x000F
  /\ registers (ArithmeticLogicUnit.AND 0x5AC4 s) R_COND = FL_POSITIVE.
Proof.
  intros s.
  assert (Hregs : forall r, is_u16 (registers s r)).
  { intros r. unfold s, upd, is_u16. cbn [registers].
    destruct (r =? 4); [lia |]. destruct (r =? 3); lia. }
  rewrite (AND_semantics 0x5AC4 s Hregs). split; reflexivity.
Defined.

(** X5.  On a 16-bit register NOT writes to DR the one's complement
    [0xFFFF - SR] and sets the flags on it; applied twice with the same
    register as source and destination it gives the register back. *)
Theorem NOT_semantics (instruction : Z) (s : Machine) :
  is_u16 (registers s (SR1_field instruction)) ->
  ArithmeticLogicUnit.NOT instruction s =
    write_with_flags (DR_field instruction)
      (0xFFFF - registers s (SR1_field instruction)) s
  /\ (DR_field instruction = SR1_field instruction ->
      registers
        (ArithmeticLogicUnit.NOT instruction
           (ArithmeticLogicUnit.NOT instruction s))
        (DR_field instruction)
      = registers s (DR_field instruction)).
Proof.
  intros Hv.
  assert (Hone : forall s0, is_u16 (registers s0 (SR1_field instruction)) ->
            ArithmeticLogicUnit.NOT instruction s0 =
            write_with_flags (DR_field instruction)
              (0xFFFF - registers s0 (SR1_field instruction)) s0).
  { intros s0 H0. unfold ArithmeticLogicUnit.NOT. cbv zeta.
    fold (DR_field instruction) (SR1_field instruction).
    rewrite wrap16_lnot by exact H0.
    apply UpdateFlags_write; [apply DR_field_range |].
    unfold is_u16 in *. lia. }
  split; [apply Hone; exact Hv |].
  intros Heq. pose proof (DR_field_range instruction) as HDR.
  assert (Hfirst : registers (ArithmeticLogicUnit.NOT instruction s)
                     (SR1_field instruction)
                   = 0xFFFF - registers s (SR1_field instruction)).
  { rewrite (Hone s Hv). unfold write_with_flags. cbn [registers].
    rewrite <- Heq. rewrite upd_other by (unfold R_COND; lia).
    apply upd_same. }
  rewrite Hone by (rewrite Hfirst; unfold is_u16 in *; lia).
  unfold write_with_flags at 1. cbn [registers].
  rewrite upd_other by (unfold R_COND; lia). rewrite upd_same.
  rewrite Hfirst, Heq. lia.
Qed.

Lemma NOT_semantics_witness :
  let s := mkMachine (upd (fun _ => 0) 1 0x00FF)
             (fun _ => 0) 1 (mkHost [] [] []) in
  registers (ArithmeticLogicUnit.NOT 0x927F s) 1 = 0xFF00
  /\ registers (ArithmeticLogicUnit.NOT 0x927F
                  (ArithmeticLogicUnit.NOT 0x927F s)) 1 = 0x00FF.
Proof.
  intros s.
  assert (Hv : is_u16 (registers s (SR1_field 0x927F)))
    by (vm_compute; split; [discriminate | reflexivity]).
  destruct (NOT_semantics 0x927F s Hv) as [H1 H2]. split.
  - rewrite H1. reflexivity.
  - apply (H2 eq_refl).
Defined.

(** X6.  LEA writes to DR the address of the next instruction plus the
    signed 9-bit offset, modulo 2^16, sets the flags on that address, and
    reads or writes no memory. *)
Theorem LEA_semantics (instruction : Z) (s : Machine) :
  ArithmeticLogicUnit.LEA instruction s =
  write_with_flags (DR_field instruction)
    (wrap16 (registers s R_PC + signed_field 9 instruction)) s.
Proof.
  unfold ArithmeticLogicUnit.LEA. cbv zeta.
  fold (DR_field instruction).
  change 511 with (Z.ones 9). rewrite wrap16_add_field by lia.
  apply UpdateFlags_write; [apply DR_field_range | apply wrap16_range].
Qed.

(** ** Control flow *)

(** X7.  BR adds the signed 9-bit offset to the program counter exactly
    when its nzp field has a flag in common with the condition register,
    and changes nothing else: with nzp = 000 it never branches, and with
    nzp = 111 it always branches when the condition register holds one
    flag. *)
Theorem BR_semantics (instruction : Z) (s : Machine) :
  let nzp := Z.land (Z.shiftr instruction 9) 0x0007 in
  let target := wrap16 (registers s R_PC + signed_field 9 instruction) in
  ArithmeticLogicUnit.BR instruction s =
    (if Z.land nzp (registers s R_COND) =? 0 then s
     else set_register R_PC target s)
  /\ (nzp = 0 -> ArithmeticLogicUnit.BR instruction s = s)
  /\ (nzp = 7 -> In (registers s R_COND) [1; 2; 4] ->
      ArithmeticLogicUnit.BR instruction s = set_register R_PC target s).
Proof.
  intros nzp target.
  assert (Hgen : ArithmeticLogicUnit.BR instruction s =
            (if Z.land nzp (registers s R_COND) =? 0 then s
             else set_register R_PC target s)).
  { unfold ArithmeticLogicUnit.BR, target, nzp. cbv zeta.
    change 511 with (Z.ones 9). rewrite wrap16_add_field by lia.
    destruct (Z.land (Z.land (Z.shiftr instruction 9) 7) (registers s R_COND) =? 0);
      reflexivity. }
  split; [exact Hgen |]. split.
  - intros H0. rewrite Hgen, H0. reflexivity.
  - intros H7 Hc. rewrite Hgen, H7. cbn [In] in Hc.
    destruct Hc as [<- | [<- | [<- | []]]]; reflexivity.
Qed.

Lemma BR_semantics_witness :
  let s := CPU.init (fun _ => 0) (fun _ => 0) (mkHost [] [] []) in
  registers (ArithmeticLogicUnit.BR 0x0E02 s) R_PC = 0x3002
  /\ ArithmeticLogicUnit.BR 0x0002 s = s.
Proof.
  intros s. destruct (BR_semantics 0x0E02 s) as [_ [_ H7]].
  destruct (BR_semantics 0x0002 s) as [_ [H0 _]]. split.
  - rewrite H7; [reflexivity | reflexivity | right; left; reflexivity].
  - apply H0. reflexivity.
Defined.

(** X8.  JSR saves the address of the next instruction in R7; in its
    long form it then adds the signed 11-bit offset to the program
    counter.  A following JMP through R7 (RET) brings the program counter
    back to the saved address. *)
Theorem JSR_then_RET (instruction ret : Z) (s : Machine) :
  SR1_field ret = 7 ->
  registers (ArithmeticLogicUnit.JSR instruction s) R_7 = registers s R_PC
  /\ (Z.testbit instruction 11 = true ->
      ArithmeticLogicUnit.JSR instruction s =
      set_register R_PC
        (wrap16 (registers s R_PC + signed_field 11 instruction))
        (set_register R_7 (registers s R_PC) s))
  /\ registers
       (ArithmeticLogicUnit.JMP ret (ArithmeticLogicUnit.JSR instruction s))
       R_PC
     = registers s R_PC.
Proof.
  intros Hret.
  assert (H7 : registers (ArithmeticLogicUnit.JSR instruction s) R_7
               = registers s R_PC).
  { unfold ArithmeticLogicUnit.JSR. cbv zeta.
    destruct (negb (Z.land (Z.shiftr instruction 11) 1 =? 0));
      cbn [registers set_register];
      rewrite upd_other by discriminate; apply upd_same. }
  split; [exact H7 |]. split.
  - intros Hlong. unfold ArithmeticLogicUnit.JSR. cbv zeta.
    rewrite bit_field by lia. rewrite Hlong.
    cbn [registers set_register]. rewrite upd_other by discriminate.
    change 2047 with (Z.ones 11). rewrite wrap16_add_field by lia.
    reflexivity.
  - unfold ArithmeticLogicUnit.JMP. cbv zeta.
    fold (SR1_field ret). rewrite Hret.
    cbn [registers set_register]. rewrite upd_same. exact H7.
Qed.

Lemma JSR_then_RET_witness :
  let s := CPU.init (fun _ => 0) (fun _ => 0) (mkHost [] [] []) in
  registers (ArithmeticLogicUnit.JSR 0x4FFE s) R_PC = 0x2FFE
  /\ registers
       (ArithmeticLogicUnit.JMP 0xC1C0 (ArithmeticLogicUnit.JSR 0x4FFE s))
       R_PC = 0x3000.
Proof.
  intros s.
  destruct (JSR_then_RET 0x4FFE 0xC1C0 s eq_refl) as [_ [Hlong Hret]].
  split.
  - rewrite (Hlong eq_refl). reflexivity.
  - rewrite Hret. reflexivity.
Defined.

(** X9.  JSRR (JSR with bit 11 clear) jumps to the value of its base
    register as it is after R7 has received the return address: through
    any register but R7 that is the register's value before the
    instruction, through R7 it is the return address itself, so that the
    program counter does not change. *)
Theorem JSRR_target (instruction : Z) (s : Machine) :
  Z.testbit instruction 11 = false ->
  registers (ArithmeticLogicUnit.JSR instruction s) R_PC =
    (if SR1_field instruction =? 7
     then registers s R_PC
     else registers s (SR1_field instruction))
  /\ registers (ArithmeticLogicUnit.JSR instruction s) R_7 = registers s R_PC.
Proof.
  intros Hshort. unfold ArithmeticLogicUnit.JSR. cbv zeta.
  rewrite bit_field by lia. rewrite Hshort.
  fold (SR1_field instruction). cbn [registers set_register].
  rewrite upd_same. rewrite (upd_other _ R_PC R_7) by discriminate.
  rewrite upd_same. split; [| reflexivity].
  unfold upd, R_7. destruct (SR1_field instruction =? 7); reflexivity.
Qed.

Lemma JSRR_target_witness :
  let s := mkMachine (upd (upd (upd (fun _ => 0) R_PC 0x3001) 7 0x4000) 2 0x5000)
             (fun _ => 0) 1 (mkHost [] [] []) in
  registers (ArithmeticLogicUnit.JSR 0x41C0 s) R_PC = 0x3001
  /\ registers (ArithmeticLogicUnit.JSR 0x4080 s) R_PC = 0x5000.
Proof.
  intros s. split.
  - destruct (JSRR_target 0x41C0 s eq_refl) as [H _]. rewrite H. reflexivity.
  - destruct (JSRR_target 0x4080 s eq_refl) as [H _]. rewrite H. reflexivity.
Defined.

(** ** Stores followed by loads *)

Lemma UpdateFlags_keeps (DR r : Z) (s : Machine) :
  r <> R_COND -> registers (CPU.UpdateFlags DR s) r = registers s r.
Proof.
  intros Hr. destruct (UpdateFlags_shape DR s) as [f [_ ->]].
  cbn [registers]. apply upd_other. exact Hr.
Qed.

Lemma loaded_register (DR v : Z) (s : Machine) :
  0 <= DR < 8 ->
  registers (CPU.UpdateFlags DR (set_register DR v s)) DR = v.
Proof.
  intros HDR. rewrite UpdateFlags_keeps by (unfold R_COND; lia).
  cbn [registers set_register]. apply upd_same.
Qed.

Lemma signed_field_mod (w a b : Z) :
  a mod 2 ^ w = b mod 2 ^ w -> signed_field w a = signed_field w b.
Proof. intros H. unfold signed_field. rewrite H. reflexivity. Qed.

(** X10.  ST stores SR at the address of the next instruction plus the
    signed 9-bit offset (modulo 2^16) and changes no other cell and no
    register; an LD with the same offset at the same program counter
    then loads that value, unless the address is the keyboard status
    register. *)
Theorem ST_then_LD (st ld : Z) (s : Machine) :
  let a := wrap16 (registers s R_PC + signed_field 9 st) in
  ld mod 2 ^ 9 = st mod 2 ^ 9 ->
  a <> MR_KBSR ->
  ArithmeticLogicUnit.ST st s
    = set_memory a (registers s (DR_field st)) s
  /\ registers (ArithmeticLogicUnit.LD ld (ArithmeticLogicUnit.ST st s))
       (DR_field ld)
     = registers s (DR_field st).
Proof.
  intros a Hoff Ha.
  assert (Hst : ArithmeticLogicUnit.ST st s
                = set_memory a (registers s (DR_field st)) s).
  { unfold ArithmeticLogicUnit.ST, MemoryIO.Write, a. cbv zeta.
    change 511 with (Z.ones 9). rewrite wrap16_add_field by lia. reflexivity. }
  split; [exact Hst |].
  rewrite Hst. unfold ArithmeticLogicUnit.LD. cbv zeta.
  change 511 with (Z.ones 9). rewrite wrap16_add_field by lia.
  rewrite (signed_field_mod 9 ld st Hoff).
  cbn [registers set_memory]. fold a.
  rewrite Read_other_address by exact Ha.
  fold (DR_field ld). rewrite loaded_register by apply DR_field_range.
  cbn [memory set_memory]. apply upd_same.
Qed.

Lemma ST_then_LD_witness :
  let s := mkMachine (upd (upd (fun _ => 0) R_PC 0x3001) 1 0xBEEF)
             (fun _ => 0) 1 (mkHost [] [] []) in
  memory (ArithmeticLogicUnit.ST 0x33FF s) 0x3000 = 0xBEEF
  /\ registers (ArithmeticLogicUnit.LD 0x25FF (ArithmeticLogicUnit.ST 0x33FF s)) 2
     = 0xBEEF.
Proof.
  intros s.
  destruct (ST_then_LD 0x33FF 0x25FF s) as [Hst Hld];
    [reflexivity | discriminate |].
  split.
  - rewrite Hst. reflexivity.
  - apply Hld.
Defined.

(** X11.  STR stores SR at the base register plus the signed 6-bit
    offset (modulo 2^16) and changes nothing else; an LDR through the
    same base register with the same offset then loads that value,
    unless the address is the keyboard status register. *)
Theorem STR_then_LDR (st ld : Z) (s : Machine) :
  let a := wrap16 (registers s (SR1_field st) + signed_field 6 st) in
  SR1_field ld = SR1_field st ->
  ld mod 2 ^ 6 = st mod 2 ^ 6 ->
  a <> MR_KBSR ->
  ArithmeticLogicUnit.STR st s
    = set_memory a (registers s (DR_field st)) s
  /\ registers (ArithmeticLogicUnit.LDR ld (ArithmeticLogicUnit.STR st s))
       (DR_field ld)
     = registers s (DR_field st).
Proof.
  intros a Hbase Hoff Ha.
  assert (Hst : ArithmeticLogicUnit.STR st s
                = set_memory a (registers s (DR_field st)) s).
  { unfold ArithmeticLogicUnit.STR, MemoryIO.Write, a. cbv zeta.
    change 63 with (Z.ones 6). rewrite wrap16_add_field by lia. reflexivity. }
  split; [exact Hst |].
  rewrite Hst. unfold ArithmeticLogicUnit.LDR. cbv zeta.
  change 63 with (Z.ones 6). rewrite wrap16_add_field by lia.
  rewrite (signed_field_mod 6 ld st Hoff).
  fold (SR1_field ld). rewrite Hbase.
  cbn [registers set_memory]. fold a.
  rewrite Read_other_address by exact Ha.
  fold (DR_field ld). rewrite loaded_register by apply DR_field_range.
  cbn [memory set_memory]. apply upd_same.
Qed.

Lemma STR_then_LDR_witness :
  let s := mkMachine (upd (upd (fun _ => 0) 3 0xFFFE) 1 0x1234)
             (fun _ => 0) 1 (mkHost [] [] []) in
  memory (ArithmeticLogicUnit.STR 0x72C4 s) 0x0002 = 0x1234
  /\ registers (ArithmeticLogicUnit.LDR 0x64C4 (ArithmeticLogicUnit.STR 0x72C4 s)) 2
     = 0x1234.
Proof.
  intros s.
  destruct (STR_then_LDR 0x72C4 0x64C4 s) as [Hst Hld];
    [reflexivity | reflexivity | discriminate |].
  split.
  - rewrite Hst. reflexivity.
  - apply Hld.
Defined.

(** X12.  STI stores SR at the address held in the cell that the signed
    9-bit offset points to; an LDI with the same offset at the same
    program counter then loads that value, provided that neither the
    pointer cell nor the pointed cell is the keyboard status register and
    that the pointer does not point to itself. *)
Theorem STI_then_LDI (st ld : Z) (s : Machine) :
  let p := wrap16 (registers s R_PC + signed_field 9 st) in
  let a := memory s p in
  ld mod 2 ^ 9 = st mod 2 ^ 9 ->
  p <> MR_KBSR -> a <> MR_KBSR -> a <> p ->
  ArithmeticLogicUnit.STI st s
    = set_memory a (registers s (DR_field st)) s
  /\ registers (ArithmeticLogicUnit.LDI ld (ArithmeticLogicUnit.STI st s))
       (DR_field ld)
     = registers s (DR_field st).
Proof.
  intros p a Hoff Hp Ha Hap.
  assert (Hst : ArithmeticLogicUnit.STI st s
                = set_memory a (registers s (DR_field st)) s).
  { unfold ArithmeticLogicUnit.STI, MemoryIO.Write. cbv zeta.
    change 511 with (Z.ones 9). rewrite wrap16_add_field by lia.
    fold p. rewrite Read_other_address by exact Hp. reflexivity. }
  split; [exact Hst |].
  rewrite Hst. unfold ArithmeticLogicUnit.LDI. cbv zeta.
  change 511 with (Z.ones 9). rewrite wrap16_add_field by lia.
  rewrite (signed_field_mod 9 ld st Hoff).
  cbn [registers set_memory]. fold p.
  rewrite Read_other_address by exact Hp.
  cbn [memory set_memory].
  rewrite (upd_other (memory s) a p) by congruence. fold a.
  rewrite Read_other_address by exact Ha.
  fold (DR_field ld). rewrite loaded_register by apply DR_field_range.
  cbn [memory set_memory]. apply upd_same.
Qed.

Lemma STI_then_LDI_witness :
  let s := mkMachine (upd (upd (fun _ => 0) R_PC 0x3000) 1 0xBEEF)
             (upd (fun _ => 0) 0x30FF 0x4000) 1 (mkHost [] [] []) in
  memory (ArithmeticLogicUnit.STI 0xB2FF s) 0x4000 = 0xBEEF
  /\ registers (ArithmeticLogicUnit.LDI 0xA0FF (ArithmeticLogicUnit.STI 0xB2FF s)) 0
     = 0xBEEF.
Proof.
  intros s.
  destruct (STI_then_LDI 0xB2FF 0xA0FF s) as [Hst Hld];
    [reflexivity | discriminate | discriminate | discriminate |].
  split.
  - rewrite Hst. reflexivity.
  - apply Hld.
Defined.

(** ** Trap routines *)

Lemma to_uchar_byte (c : ascii) : to_uchar (byte_val c) = byte_val c.
Proof. unfold to_uchar. apply Z.mod_small. apply byte_val_range. Qed.

Lemma put_chars_out (cs : list ascii) :
  forall h, put_chars cs h
            = mkHost (keyhits h) (stdin h) (stdout h ++ chars_out cs).
Proof.
  unfold put_chars, chars_out.
  induction cs as [| c cs IH]; intros h; cbn [fold_left map].
  - rewrite app_nil_r. destruct h; reflexivity.
  - rewrite IH. unfold putc. cbn [keyhits stdin stdout].
    rewrite to_uchar_byte, <- app_assoc. reflexivity.
Qed.

(** X13.  TRAP 0x21 (OUT) writes the low byte of R0 to the output and
    flushes; besides the return address in R7 nothing else changes, and
    no input is consumed. *)
Theorem OUT_output (instruction : Z) (s : Machine) :
  Z.land instruction 0x00FF = TRAP_OUT ->
  Trap.Proxy instruction s =
  Some (mkMachine (upd (registers s) R_7 (registers s R_PC))
          (memory s) (running s)
          (mkHost (keyhits (os s)) (stdin (os s))
             (stdout (os s) ++ [Putc (registers s R_0 mod 256); Fflush]))).
Proof.
  intros Hv. unfold Trap.Proxy. cbv zeta. rewrite Hv.
  cbn [Z.eqb Pos.eqb TRAP_OUT TRAP_GETC].
  unfold Trap.OUTC, fflush, putc, set_os.
  cbn [registers memory running os set_register keyhits stdin stdout].
  rewrite (upd_other _ R_7 R_0) by discriminate.
  rewrite to_uchar_to_char, <- app_assoc. reflexivity.
Qed.

Lemma OUT_output_witness :
  let s := mkMachine (upd (fun _ => 0) R_0 0x0141)
             (fun _ => 0) 1 (mkHost [] [] []) in
  Trap.Proxy 0xF021 s =
  Some (mkMachine (upd (registers s) R_7 0) (memory s) 1
          (mkHost [] [] [Putc 0x41; Fflush])).
Proof.
  intros s. apply (OUT_output 0xF021 s). reflexivity.
Defined.

Lemma PUTS_loop_spec (mem : Z -> Z) (n : nat) :
  forall (room : nat) (c : Z) (h : Host),
    (n < room)%nat ->
    (forall i, 0 <= i < Z.of_nat n -> mem (c + i) <> 0) ->
    mem (c + Z.of_nat n) = 0 ->
    Trap.PUTS_loop room mem c h =
    Some (mkHost (keyhits h) (stdin h)
            (stdout h ++ map PUTS_byte (words_from mem c n))).
Proof.
  induction n as [| n IH]; intros room c h Hroom Hwords Hzero.
  - destruct room as [| room]; [lia |].
    cbn [Trap.PUTS_loop words_from map].
    replace (c + Z.of_nat 0) with c in Hzero by lia.
    rewrite Hzero. cbn [Z.eqb negb]. rewrite app_nil_r.
    destruct h; reflexivity.
  - destruct room as [| room]; [lia |].
    cbn [Trap.PUTS_loop words_from map].
    pose proof (Hwords 0 ltac:(lia)) as Hnz.
    replace (c + 0) with c in Hnz by lia.
    destruct (Z.eqb_spec (mem c) 0) as [Hz | _]; [contradiction |].
    cbn [negb]. rewrite IH.
    + unfold putc, PUTS_byte. cbn [keyhits stdin stdout].
      rewrite to_uchar_to_char, <- app_assoc. reflexivity.
    + lia.
    + intros i Hi. replace (c + 1 + i) with (c + (i + 1)) by lia.
      apply Hwords. lia.
    + replace (c + 1 + Z.of_nat n) with (c + Z.of_nat (S n)) by lia.
      exact Hzero.
Qed.

(** X14.  When the words of memory from R0 on are non-zero up to a first
    zero word inside the memory, PUTS writes the low byte of each of the
    words before that zero word, in order, and then flushes; the high
    bytes are not written, and nothing else changes. *)
Theorem PUTS_output (s : Machine) (n : nat) :
  registers s R_0 + Z.of_nat n < MEMORY_MAX ->
  (forall i, 0 <= i < Z.of_nat n -> memory s (registers s R_0 + i) <> 0) ->
  memory s (registers s R_0 + Z.of_nat n) = 0 ->
  Trap.PUTS s =
    Some (mkMachine (registers s) (memory s) (running s)
            (mkHost (keyhits (os s)) (stdin (os s))
               (stdout (os s)
                ++ map PUTS_byte (words_from (memory s) (registers s R_0) n)
                ++ [Fflush]))).
Proof.
  intros Hend Hwords Hzero. unfold Trap.PUTS. cbv zeta.
  rewrite (PUTS_loop_spec (memory s) n); [| lia | exact Hwords | exact Hzero].
  unfold fflush, set_os. cbn [keyhits stdin stdout].
  rewrite <- app_assoc. reflexivity.
Qed.

Lemma PUTS_output_witness :
  let mem := upd (upd (fun _ => 0) 0x3100 0x0048) 0x3101 0x4269 in
  let s := mkMachine (upd (fun _ => 0) R_0 0x3100) mem 1 (mkHost [] [] []) in
  Trap.PUTS s =
    Some (mkMachine (registers s) mem 1
            (mkHost [] [] [Putc 0x48; Putc 0x69; Fflush])).
Proof.
  intros mem s.
  apply (PUTS_output s 2).
  - reflexivity.
  - intros i Hi.
    assert (Hcases : i = 0 \/ i = 1) by lia.
    destruct Hcases as [-> | ->]; vm_compute; discriminate.
  - reflexivity.
Defined.

Lemma PUTS_loop_unterminated (mem : Z -> Z) (room : nat) :
  forall (c : Z) (h : Host),
    (forall i, 0 <= i < Z.of_nat room -> mem (c + i) <> 0) ->
    Trap.PUTS_loop room mem c h = None.
Proof.
  induction room as [| room IH]; intros c h Hwords; [reflexivity |].
  cbn [Trap.PUTS_loop].
  pose proof (Hwords 0 ltac:(lia)) as Hnz.
  replace (c + 0) with c in Hnz by lia.
  destruct (Z.eqb_spec (mem c) 0) as [Hz | _]; [contradiction |].
  cbn [negb]. apply IH.
  intros i Hi. replace (c + 1 + i) with (c + (i + 1)) by lia.
  apply Hwords. lia.
Qed.

Lemma PUTSP_loop_unterminated (mem : Z -> Z) (room : nat) :
  forall (c : Z) (h : Host),
    (forall i, 0 <= i < Z.of_nat room -> mem (c + i) <> 0) ->
    Trap.PUTSP_loop room mem c h = None.
Proof.
  induction room as [| room IH]; intros c h Hwords; [reflexivity |].
  cbn [Trap.PUTSP_loop].
  pose proof (Hwords 0 ltac:(lia)) as Hnz.
  replace (c + 0) with c in Hnz by lia.
  destruct (Z.eqb_spec (mem c) 0) as [Hz | _]; [contradiction |].
  cbn [negb]. cbv zeta. apply IH.
  intros i Hi. replace (c + 1 + i) with (c + (i + 1)) by lia.
  apply Hwords. lia.
Qed.

(** X15.  PUTS and PUTSP put no bound on their scan: when no word from
    R0 to the end of the memory array is zero, the pointer leaves the
    array, which the model reports as an out-of-bounds read, and the step
    of the machine as [OutOfBounds]. *)
Theorem string_traps_need_terminator (s : Machine) :
  (forall a, registers s R_0 <= a < MEMORY_MAX -> memory s a <> 0) ->
  Trap.PUTS s = None /\ Trap.PUTSP s = None.
Proof.
  intros Hwords. unfold Trap.PUTS, Trap.PUTSP. cbv zeta.
  rewrite PUTS_loop_unterminated, PUTSP_loop_unterminated;
    [split; reflexivity | |]; intros i Hi; apply Hwords; lia.
Qed.

Lemma string_traps_need_terminator_witness :
  let s := mkMachine (upd (fun _ => 0) R_0 0xFFFF) (fun _ => 0x41) 1
             (mkHost [] [] []) in
  Trap.PUTS s = None /\ Trap.PUTSP s = None.
Proof.
  intros s. apply (string_traps_need_terminator s).
  intros a _. discriminate.
Defined.

Lemma sign_class_byte (v : Z) :
  0 <= v < 256 -> sign_class v = if v =? 0 then 2 else 1.
Proof.
  intros Hv. unfold sign_class.
  rewrite (testbit_high v 8 15) by (change (2 ^ 8) with 256; lia).
  reflexivity.
Qed.

(** X16.  GETC consumes one byte of input into R0, with a zero high
    byte, sets the flags to Z for the byte 0 and to P otherwise, and
    writes nothing to the output.  At the end of the input R0 receives
    0xFFFF and the flags are N. *)
Theorem GETC_semantics (s : Machine) :
  (forall c rest,
      stdin (os s) = c :: rest ->
      Trap.GETC s =
      mkMachine
        (upd (upd (registers s) R_0 (byte_val c)) R_COND
             (if byte_val c =? 0 then FL_ZERO else FL_POSITIVE))
        (memory s) (running s)
        (mkHost (keyhits (os s)) rest (stdout (os s))))
  /\ (stdin (os s) = [] ->
      Trap.GETC s =
      mkMachine (upd (upd (registers s) R_0 0xFFFF) R_COND FL_NEGATIVE)
        (memory s) (running s) (os s)).
Proof.
  split.
  - intros c rest Hin. unfold Trap.GETC, getchar. rewrite Hin.
    pose proof (byte_val_range c) as Hb.
    rewrite wrap16_small by (unfold is_u16; lia).
    rewrite UpdateFlags_write by (unfold R_0, is_u16; lia).
    unfold write_with_flags. rewrite sign_class_byte by exact Hb.
    reflexivity.
  - intros Hin. unfold Trap.GETC, getchar. rewrite Hin.
    rewrite UpdateFlags_write;
      [| unfold R_0; lia | apply wrap16_range].
    destruct s as [regs mem run h]. reflexivity.
Qed.

Lemma GETC_semantics_witness :
  let s := mkMachine (fun _ => 0) (fun _ => 0) 1
             (mkHost [] ["a"%char; "b"%char] []) in
  registers (Trap.GETC s) R_0 = 0x61
  /\ registers (Trap.GETC s) R_COND = FL_POSITIVE
  /\ os (Trap.GETC s) = mkHost [] ["b"%char] [].
Proof.
  intros s. destruct (GETC_semantics s) as [H _].
  rewrite (H "a"%char ["b"%char] eq_refl).
  split; [reflexivity |]. split; reflexivity.
Defined.

(** X17.  IN writes the prompt, consumes one byte of input, echoes it
    and flushes; for a 7-bit byte R0 receives the byte and the flags are
    Z for the byte 0 and P otherwise. *)
Theorem IN_semantics (s : Machine) (c : ascii) (rest : list ascii) :
  stdin (os s) = c :: rest ->
  byte_val c < 128 ->
  Trap.INC s =
  mkMachine
    (upd (upd (registers s) R_0 (byte_val c)) R_COND
         (if byte_val c =? 0 then FL_ZERO else FL_POSITIVE))
    (memory s) (running s)
    (mkHost (keyhits (os s)) rest
       (stdout (os s)
        ++ chars_out (list_ascii_of_string "Enter a character: ")
        ++ [Putc (byte_val c); Fflush])).
Proof.
  intros Hin Hc. pose proof (byte_val_range c) as Hb.
  unfold Trap.INC, printf. cbv zeta. rewrite put_chars_out.
  unfold getchar. cbn [keyhits stdin stdout]. rewrite Hin.
  assert (Hchar : to_char (byte_val c) = byte_val c).
  { unfold to_char. cbv zeta. rewrite Z.mod_small by lia.
    destruct (Z.ltb_spec (byte_val c) 128); [reflexivity | lia]. }
  rewrite Hchar. rewrite wrap16_small by (unfold is_u16; lia).
  rewrite UpdateFlags_write by (unfold R_0, is_u16; lia).
  unfold write_with_flags. rewrite sign_class_byte by exact Hb.
  unfold fflush, putc, set_os.
  cbn [registers memory running os keyhits stdin stdout].
  rewrite to_uchar_byte. rewrite <- !app_assoc. reflexivity.
Qed.

Lemma IN_semantics_witness :
  let s := mkMachine (fun _ => 0) (fun _ => 0) 1
             (mkHost [] ["a"%char] []) in
  registers (Trap.INC s) R_0 = 0x61
  /\ stdin (os (Trap.INC s)) = [].
Proof.
  intros s.
  rewrite (IN_semantics s "a"%char [] eq_refl);
    [split; reflexivity | vm_compute; reflexivity].
Defined.

(** ** The loop and the run flag *)

(** The registers a trap routine may change besides R7 are R0 and the
    condition register; the memory is never written. *)
Lemma Proxy_frame (instruction : Z) (s s' : Machine) :
  Trap.Proxy instruction s = Some s' ->
  (forall r, r <> R_0 -> r <> R_COND ->
             registers s' r = upd (registers s) R_7 (registers s R_PC) r)
  /\ memory s' = memory s
  /\ (running s' = running s
      \/ Z.land instruction 0x00FF = TRAP_HALT /\ running s' = 0).
Proof.
  unfold Trap.Proxy. cbv zeta.
  repeat match goal with
    | |- context [Z.land instruction 255 =? ?v] =>
        let Hv := fresh "Hv" in
        destruct (Z.eqb_spec (Z.land instruction 255) v) as [Hv | Hv]
    end;
    intros H.
  - injection H as <-. unfold Trap.GETC.
    destruct (getchar _) as [c h]. expose_flags.
    split; [| split; [reflexivity | left; reflexivity]].
    intros r H0 Hc. rewrite !upd_other by assumption. reflexivity.
  - injection H as <-. split; [| split; [reflexivity | left; reflexivity]].
    intros r H0 Hc. reflexivity.
  - unfold Trap.PUTS in H. cbv zeta in H.
    destruct (Trap.PUTS_loop _ _ _ _) as [h |]; [| discriminate H].
    injection H as <-. split; [| split; [reflexivity | left; reflexivity]].
    intros r H0 Hc. reflexivity.
  - injection H as <-. unfold Trap.INC. cbv zeta.
    destruct (getchar _) as [c h]. expose_flags.
    split; [| split; [reflexivity | left; reflexivity]].
    intros r H0 Hc. rewrite !upd_other by assumption. reflexivity.
  - unfold Trap.PUTSP in H. cbv zeta in H.
    destruct (Trap.PUTSP_loop _ _ _ _) as [h |]; [| discriminate H].
    injection H as <-. split; [| split; [reflexivity | left; reflexivity]].
    intros r H0 Hc. reflexivity.
  - injection H as <-. split; [| split; [reflexivity | right]].
    + intros r H0 Hc. reflexivity.
    + split; [assumption | reflexivity].
  - injection H as <-. split; [| split; [reflexivity | left; reflexivity]].
    intros r H0 Hc. reflexivity.
Qed.

Lemma step_of_trap (s s' : Machine) :
  VirtualMachine.step s = VirtualMachine.Continue s' ->
  opcode s = OP_TRAP ->
  Trap.Proxy (fetched s) (snd (VirtualMachine.fetch s)) = Some s'.
Proof.
  intros Hstep Hop. unfold opcode, fetched in *.
  unfold VirtualMachine.step in Hstep.
  destruct (VirtualMachine.fetch s) as [instruction s1].
  cbn [fst snd] in *. cbv zeta in Hstep. rewrite Hop in Hstep.
  change (VirtualMachine.handler OP_TRAP) with (Some Trap.Proxy) in Hstep.
  cbv beta iota in Hstep.
  destruct (Trap.Proxy instruction s1); [| discriminate Hstep].
  injection Hstep as <-. reflexivity.
Qed.

(** X18.  After every TRAP whose routine returns, whatever its vector,
    both R7 and the program counter hold the address of the instruction
    after the TRAP: the routines return to the program by falling back
    into the loop, not by a jump through R7. *)
Theorem TRAP_return_address (s s' : Machine) :
  VirtualMachine.step s = VirtualMachine.Continue s' ->
  opcode s = OP_TRAP ->
  registers s' R_7 = wrap16 (registers s R_PC + 1)
  /\ registers s' R_PC = wrap16 (registers s R_PC + 1).
Proof.
  intros Hstep Hop. pose proof (step_of_trap s s' Hstep Hop) as Hp.
  destruct (Proxy_frame _ _ _ Hp) as [Hregs _].
  destruct (fetch_shape s) as [m [h E]]. rewrite E in Hregs. cbn [snd registers] in Hregs.
  split.
  - rewrite Hregs by discriminate. rewrite upd_same. apply upd_same.
  - rewrite Hregs by discriminate.
    rewrite upd_other by discriminate. apply upd_same.
Qed.

Lemma TRAP_return_address_witness :
  let s := CPU.init (fun _ => 0) (upd (fun _ => 0) 0x3000 0xF021)
             (mkHost [] [] []) in
  exists s',
    VirtualMachine.step s = VirtualMachine.Continue s'
    /\ registers s' R_7 = 0x3001 /\ registers s' R_PC = 0x3001.
Proof.
  intros s.
  destruct (VirtualMachine.step s) as [s' | s' |] eqn:E;
    try (vm_compute in E; discriminate E).
  exists s'. split; [reflexivity |].
  destruct (TRAP_return_address s s' E eq_refl) as [H7 Hpc].
  rewrite H7, Hpc. split; reflexivity.
Defined.

Lemma ALU_keeps_running (instruction : Z) (s : Machine) :
  Forall (fun f : Z -> Machine -> Machine =>
            running (f instruction s) = running s)
    [ArithmeticLogicUnit.ADD; ArithmeticLogicUnit.AND;
     ArithmeticLogicUnit.NOT; ArithmeticLogicUnit.BR;
     ArithmeticLogicUnit.JMP; ArithmeticLogicUnit.JSR;
     ArithmeticLogicUnit.LD; ArithmeticLogicUnit.LDI;
     ArithmeticLogicUnit.LDR; ArithmeticLogicUnit.LEA;
     ArithmeticLogicUnit.ST; ArithmeticLogicUnit.STI;
     ArithmeticLogicUnit.STR].
Proof.
  repeat constructor;
    unfold ArithmeticLogicUnit.ADD, ArithmeticLogicUnit.AND,
      ArithmeticLogicUnit.NOT, ArithmeticLogicUnit.BR,
      ArithmeticLogicUnit.JMP, ArithmeticLogicUnit.JSR,
      ArithmeticLogicUnit.LD, ArithmeticLogicUnit.LDI,
      ArithmeticLogicUnit.LDR, ArithmeticLogicUnit.LEA,
      ArithmeticLogicUnit.ST, ArithmeticLogicUnit.STI,
      ArithmeticLogicUnit.STR, MemoryIO.Write;
    cbv zeta; expose_reads; split_ifs; expose_flags; reflexivity.
Qed.

Lemma step_running (s s' : Machine) :
  VirtualMachine.step s = VirtualMachine.Continue s' ->
  running s' = running s
  \/ opcode s = OP_TRAP
     /\ Z.land (fetched s) 0x00FF = TRAP_HALT /\ running s' = 0.
Proof.
  intros Hstep.
  destruct (Z.eq_dec (opcode s) OP_TRAP) as [Htrap | Hntrap].
  - pose proof (step_of_trap s s' Hstep Htrap) as Hp.
    destruct (Proxy_frame _ _ _ Hp) as [_ [_ Hrun]].
    destruct (fetch_shape s) as [m [h E]]. rewrite E in Hrun. cbn [snd running] in Hrun.
    destruct Hrun as [Hsame | [Hv Hz]]; [left; exact Hsame | right; auto].
  - left. unfold opcode, fetched in Hntrap.
    unfold VirtualMachine.step in Hstep.
    destruct (fetch_shape s) as [m [h E]]. rewrite E in *. cbn [fst snd] in *.
    set (instruction := m (registers s R_PC)) in *.
    set (s1 := mkMachine _ m (running s) h) in *.
    pose proof (ALU_keeps_running instruction s1) as Hall.
    repeat match type of Hall with
      | Forall _ (_ :: _) =>
          let Hh := fresh "Hh" in
          inversion Hall as [| ? ? Hh Hall']; subst; clear Hall;
          rename Hall' into Hall
      end.
    cbv zeta in Hstep.
    unfold VirtualMachine.handler, VirtualMachine.total in Hstep.
    repeat match type of Hstep with
      | context [Z.shiftr instruction 12 =? ?op] =>
          let Hop := fresh "Hop" in
          destruct (Z.eqb_spec (Z.shiftr instruction 12) op) as [Hop | Hop]
      end;
      try contradiction; try discriminate Hstep;
      injection Hstep as <-; assumption.
Qed.

(** X19.  The run flag changes only in HALT: every step whose handler
    returns leaves the flag as it was, except a TRAP with vector 0x25,
    which clears it.  Hence in every reachable state the flag is 0 or
    1, and once it is 0 the loop has ended. *)
Theorem run_flag_only_cleared_by_HALT (s : Machine) :
  (forall s',
      VirtualMachine.step s = VirtualMachine.Continue s' ->
      running s' = running s
      \/ opcode s = OP_TRAP
         /\ Z.land (fetched s) 0x00FF = TRAP_HALT /\ running s' = 0)
  /\ (VirtualMachine.reachable s -> running s = 0 \/ running s = 1)
  /\ (running s = 0 ->
      forall fuel, VirtualMachine.run (S fuel) s = VirtualMachine.Halted s).
Proof.
  split; [intros s' Hstep; apply (step_running s s' Hstep) |]. split.
  - induction 1 as [registers0 memory0 h Hregs Hmem
                   | bo file s s' _ IH Hload
                   | s s' _ IH _ Hstep].
    + right. reflexivity.
    + unfold CPU.ReadImage in Hload.
      destruct (CPU.ReadImageFile bo file (memory s)); [| discriminate Hload].
      injection Hload as <-. exact IH.
    + destruct (step_running s s' Hstep) as [-> | [_ [_ ->]]];
        [exact IH | left; reflexivity].
  - intros Hz fuel. cbn [VirtualMachine.run]. rewrite Hz. reflexivity.
Qed.

Lemma run_flag_only_cleared_by_HALT_witness :
  let s := CPU.init (fun _ => 0) (upd (fun _ => 0) 0x3000 0x147F)
             (mkHost [] [] []) in
  exists s',
    VirtualMachine.step s = VirtualMachine.Continue s' /\ running s' = 1.
Proof.
  intros s.
  destruct (VirtualMachine.step s) as [s' | s' |] eqn:E;
    try (vm_compute in E; discriminate E).
  exists s'. split; [reflexivity |].
  destruct (run_flag_only_cleared_by_HALT s) as [Hstep _].
  destruct (Hstep s' E) as [H | [Hop _]].
  - rewrite H. reflexivity.
  - vm_compute in Hop. discriminate Hop.
Defined.

(** X20.  A TRAP with vector 0x25 (HALT) fetched by a running machine
    writes "HALT" and a newline, flushes, clears the run flag, and the
    loop ends at its next test with R7 holding the return address:
    the run halts, it neither aborts nor goes on. *)
Theorem HALT_ends_run (s : Machine) :
  running s <> 0 ->
  opcode s = OP_TRAP ->
  Z.land (fetched s) 0x00FF = TRAP_HALT ->
  let s1 := snd (VirtualMachine.fetch s) in
  let s' :=
    mkMachine (upd (registers s1) R_7 (registers s1 R_PC)) (memory s1) 0
      (mkHost (keyhits (os s1)) (stdin (os s1))
         (stdout (os s1)
          ++ chars_out (list_ascii_of_string "HALT")
          ++ [Putc 10; Fflush])) in
  VirtualMachine.step s = VirtualMachine.Continue s'
  /\ forall fuel,
       VirtualMachine.run (S (S fuel)) s = VirtualMachine.Halted s'.
Proof.
  intros Hrun Hop Hv s1 s'.
  assert (Hstep : VirtualMachine.step s = VirtualMachine.Continue s').
  { unfold s', s1, opcode, fetched in *. unfold VirtualMachine.step.
    destruct (VirtualMachine.fetch s) as [instruction s0].
    cbn [fst snd] in *. cbv zeta. rewrite Hop.
    change (VirtualMachine.handler OP_TRAP) with (Some Trap.Proxy).
    cbv beta iota. unfold Trap.Proxy. cbv zeta. rewrite Hv.
    cbn [Z.eqb Pos.eqb TRAP_GETC TRAP_OUT TRAP_PUTS TRAP_IN TRAP_PUTSP
         TRAP_HALT].
    unfold Trap.HALT, puts. rewrite put_chars_out.
    unfold fflush, putc, set_running, set_os, set_register.
    cbn [registers memory running os keyhits stdin stdout].
    change (to_uchar 10) with 10. rewrite <- !app_assoc. reflexivity. }
  split; [exact Hstep |].
  intros fuel. cbn [VirtualMachine.run].
  destruct (Z.eqb_spec (running s) 0); [contradiction |].
  cbn [negb]. rewrite Hstep. reflexivity.
Qed.

Lemma HALT_ends_run_witness :
  let s := CPU.init (fun _ => 0) (upd (fun _ => 0) 0x3000 0xF025)
             (mkHost [] [] []) in
  exists s',
    VirtualMachine.run 10 s = VirtualMachine.Halted s'
    /\ running s' = 0
    /\ stdout (os s')
       = [Putc 0x48; Putc 0x41; Putc 0x4C; Putc 0x54; Putc 0x0A; Fflush].
Proof.
  intros s.
  destruct (HALT_ends_run s) as [_ Hrun];
    [discriminate | reflexivity | reflexivity |].
  eexists. split; [apply (Hrun 8%nat) |]. split; reflexivity.
Defined.

Lemma register_handlers_frame (instruction : Z) (s : Machine) :
  Forall (fun f : Z -> Machine -> Machine =>
            memory (f instruction s) = memory s
            /\ os (f instruction s) = os s)
    [ArithmeticLogicUnit.ADD; ArithmeticLogicUnit.AND;
     ArithmeticLogicUnit.NOT; ArithmeticLogicUnit.BR;
     ArithmeticLogicUnit.JMP; ArithmeticLogicUnit.JSR;
     ArithmeticLogicUnit.LEA].
Proof.
  repeat constructor;
    unfold ArithmeticLogicUnit.ADD, ArithmeticLogicUnit.AND,
      ArithmeticLogicUnit.NOT, ArithmeticLogicUnit.BR,
      ArithmeticLogicUnit.JMP, ArithmeticLogicUnit.JSR,
      ArithmeticLogicUnit.LEA;
    cbv zeta; split_ifs; expose_flags; reflexivity.
Qed.

(** X21.  The instructions ADD, AND, NOT, BR, JMP, JSR and LEA work on
    registers only: when the instruction is not fetched from the
    keyboard status register, the step leaves the memory, the console
    and the run flag exactly as they were. *)
Theorem register_instructions_frame (s s' : Machine) :
  VirtualMachine.step s = VirtualMachine.Continue s' ->
  registers s R_PC <> MR_KBSR ->
  In (opcode s) [OP_ADD; OP_AND; OP_NOT; OP_BR; OP_JMP; OP_JSR; OP_LEA] ->
  memory s' = memory s /\ os s' = os s /\ running s' = running s.
Proof.
  intros Hstep Hpc Hop.
  assert (Hrun : running s' = running s).
  { destruct (step_running s s' Hstep) as [H | [Ht _]]; [exact H |].
    rewrite Ht in Hop. cbn [In] in Hop.
    repeat (destruct Hop as [Hop | Hop]; [discriminate Hop |]).
    destruct Hop. }
  unfold opcode, fetched in Hop. unfold VirtualMachine.step in Hstep.
  unfold VirtualMachine.fetch in *. cbv zeta in *.
  rewrite Read_other_address in * by exact Hpc.
  cbn [fst snd memory set_register] in *.
  set (instruction := memory s (registers s R_PC)) in *.
  set (s1 := set_register R_PC _ s) in *.
  pose proof (register_handlers_frame instruction s1) as Hall.
  repeat match type of Hall with
    | Forall _ (_ :: _) =>
        let Hh := fresh "Hh" in
        inversion Hall as [| ? ? Hh Hall']; subst; clear Hall;
        rename Hall' into Hall
    end.
  cbn [In] in Hop.
  destruct Hop as [Hop | [Hop | [Hop | [Hop | [Hop | [Hop | [Hop | []]]]]]]];
    rewrite <- Hop in Hstep; cbn in Hstep; injection Hstep as <-;
    (split; [| split; [| exact Hrun]]);
    match goal with
    | H : memory (?f instruction s1) = _ /\ _ |- memory (?f instruction s1) = _ =>
        apply H
    | H : _ /\ os (?f instruction s1) = _ |- os (?f instruction s1) = _ =>
        apply H
    end.
Qed.

Lemma register_instructions_frame_witness :
  let s := CPU.init (fun _ => 0) (upd (fun _ => 0) 0x3000 0x147F)
             (mkHost [true] ["a"%char] []) in
  exists s',
    VirtualMachine.step s = VirtualMachine.Continue s'
    /\ memory s' = memory s /\ os s' = os s.
Proof.
  intros s.
  destruct (VirtualMachine.step s) as [s' | s' |] eqn:E;
    try (vm_compute in E; discriminate E).
  exists s'. split; [reflexivity |].
  destruct (register_instructions_frame s s' E) as [Hm [Ho _]].
  - discriminate.
  - left. reflexivity.
  - split; assumption.
Defined.

(** X22.  A bus read never changes a register, the run flag or the
    output, and never changes a memory cell other than the keyboard
    status and data registers; after a read of the status register that
    register holds 0 or 0x8000. *)
Theorem Read_frame (addr : Z) (s : Machine) :
  let s' := snd (MemoryIO.Read addr s) in
  registers s' = registers s
  /\ running s' = running s
  /\ stdout (os s') = stdout (os s)
  /\ (forall a, a <> MR_KBSR -> a <> MR_KBDR -> memory s' a = memory s a)
  /\ (addr = MR_KBSR ->
      memory s' MR_KBSR = 0 \/ memory s' MR_KBSR = 0x8000).
Proof.
  intros s'. unfold s'.
  split; [apply Read_registers |]. split; [apply Read_running |].
  split; [| split].
  - unfold MemoryIO.Read. destruct (addr =? MR_KBSR); [| reflexivity].
    unfold OS.CheckKey. destruct (keyhits (os s)) as [| k ks]; [reflexivity |].
    destruct (negb (Z.b2z k =? 0)); [| reflexivity].
    cbn [os set_memory set_os]. unfold getchar. cbn [stdin keyhits stdout].
    destruct (stdin (os s)); reflexivity.
  - intros a Hs Hd. apply Read_memory_frame; [exact Hs | left; exact Hd].
  - intros ->. unfold MemoryIO.Read. rewrite Z.eqb_refl.
    destruct (OS.CheckKey (os s)) as [key h1].
    destruct (negb (key =? 0)); cbn [snd].
    + right. cbn [os set_memory set_os]. destruct (getchar h1) as [c h2].
      cbn [memory set_memory set_os].
      rewrite upd_other by discriminate. apply upd_same.
    + left. cbn [memory set_memory set_os]. apply upd_same.
Qed.

Lemma Read_frame_witness :
  let s := mkMachine (fun _ => 7) (fun _ => 9) 1
             (mkHost [true] ["a"%char] [Putc 1]) in
  memory (snd (MemoryIO.Read MR_KBSR s)) 0x3000 = 9
  /\ memory (snd (MemoryIO.Read MR_KBSR s)) MR_KBSR = 0x8000
  /\ stdout (os (snd (MemoryIO.Read MR_KBSR s))) = [Putc 1].
Proof.
  intros s.
  destruct (Read_frame MR_KBSR s) as [_ [_ [Hout [Hmem Hst]]]].
  split; [apply Hmem; discriminate |].
  split; [| exact Hout].
  destruct (Hst eq_refl) as [H | H]; [vm_compute in H; discriminate H | exact H].
Defined.

(** X23.  In every state the program reaches (the constructed CPU,
    after image loads, after any number of steps) every register and
    every memory cell holds a value in 0..65535. *)
Theorem reachable_words_are_16_bit (s : Machine) :
  VirtualMachine.reachable s ->
  (forall r, is_u16 (registers s r)) /\ (forall a, is_u16 (memory s a)).
Proof.
  intros Hreach. destruct (reachable_ok s Hreach) as [Hregs [Hmem _]].
  split; assumption.
Qed.

Lemma reachable_words_are_16_bit_witness :
  let s := CPU.init (fun _ => 0) (upd (fun _ => 0) 0x3000 0x147F)
             (mkHost [] [] []) in
  exists s', VirtualMachine.step s = VirtualMachine.Continue s'
             /\ is_u16 (registers s' 2).
Proof.
  intros s.
  destruct (VirtualMachine.step s) as [s' | s' |] eqn:Hstep;
    try (vm_compute in Hstep; discriminate Hstep).
  exists s'. split; [reflexivity |].
  assert (Hreach : VirtualMachine.reachable s).
  { apply VirtualMachine.reach_init; intros x; unfold is_u16, upd.
    - lia.
    - destruct (x =? 12288); lia. }
  assert (Hreach' : VirtualMachine.reachable s').
  { apply (VirtualMachine.reach_step s s' Hreach); [discriminate | exact Hstep]. }
  apply (reachable_words_are_16_bit s' Hreach').
Defined.

(** ** The image loader on arbitrary files *)

Lemma fread_frame (bo : byte_order) (count : nat) :
  forall (file : list ascii) (mem : Z -> Z) (p : Z),
  exists mem' k m,
    fread bo count file mem p = Some (mem', k)
    /\ (k <= m <= count)%nat
    /\ (2 * k <= List.length file)%nat
    /\ (2 * m <= List.length file + 1)%nat
    /\ forall a, ~ (p <= a < p + Z.of_nat m) -> mem' a = mem a.
Proof.
  induction count as [| count IH]; intros file mem p.
  - exists mem, O, O. cbn [fread]. repeat split; try lia.
  - destruct file as [| b0 [| b1 rest]].
    + exists mem, O, O. cbn [fread List.length]. repeat split; try lia.
    + exists (upd mem p (partial_word bo b0 (mem p))), O, 1%nat.
      cbn [fread List.length]. repeat split; try lia.
      intros a Ha. apply upd_other. lia.
    + destruct (IH rest (upd mem p (word_of_bytes bo b0 b1)) (p + 1))
        as [mem1 [k [m [E [Hk [Hlen [Hm Hframe]]]]]]].
      exists mem1, (S k), (S m). cbn [fread List.length]. rewrite E.
      repeat split; try lia.
      intros a Ha. rewrite Hframe by lia. apply upd_other. lia.
Qed.

(** X24.  Whatever the bytes of a file that holds at least its origin
    word, and whatever the byte order of the host, the load completes
    and changes no cell below the origin, no cell at or beyond the end
    of the 65536-word memory, and no cell further from the origin than
    the number of words, whole or cut short, that follow the origin in
    the file. *)
Theorem ReadImageFile_bounds
    (bo : byte_order) (b0 b1 : ascii) (rest : list ascii) (mem : Z -> Z) :
  let origin := Swap16 (word_of_bytes bo b0 b1) in
  exists mem',
    CPU.ReadImageFile bo (b0 :: b1 :: rest) mem = Some mem'
    /\ is_u16 origin
    /\ forall a,
         ~ (origin <= a
            < Z.min MEMORY_MAX
                (origin + (Z.of_nat (List.length rest) + 1) / 2)) ->
         mem' a = mem a.
Proof.
  intros origin.
  assert (Ho : is_u16 origin) by (unfold origin, Swap16; apply wrap16_range).
  destruct (fread_frame bo (Z.to_nat (wrap16 (MEMORY_MAX - origin))) rest
              mem origin)
    as [mem1 [k [m [E [Hk [Hlen [Hm Hframe]]]]]]].
  exists (CPU.swap_words k mem1 origin).
  split; [| split; [exact Ho |]].
  - unfold CPU.ReadImageFile. cbv zeta. fold origin. rewrite E. reflexivity.
  - assert (Hmax : wrap16 (MEMORY_MAX - origin) <= MEMORY_MAX - origin).
    { unfold is_u16 in Ho. unfold wrap16. change MEMORY_MAX with 65536.
      destruct (Z.eq_dec origin 0) as [-> | Hnz]; [cbn; lia |].
      rewrite Z.mod_small by lia. lia. }
    assert (Hwrap : 0 <= wrap16 (MEMORY_MAX - origin))
      by apply wrap16_range.
    assert (Hhalf : Z.of_nat m <= (Z.of_nat (List.length rest) + 1) / 2)
      by (apply Z.div_le_lower_bound; lia).
    intros a Ha. rewrite swap_words_spec.
    destruct (Z.leb_spec origin a), (Z.ltb_spec a (origin + Z.of_nat k));
      cbn [andb]; try (apply Hframe; lia).
    exfalso. apply Ha. lia.
Qed.

(** The image 30 00 12 34 56 on a little-endian host whose memory
    holds 0xAAAA everywhere: one whole word is loaded and swapped, and
    the odd last byte replaces the low byte of the next cell. *)
Example ReadImageFile_trailing_byte :
  exists mem',
    CPU.ReadImageFile LittleEndian
      [chr 0x30; chr 0x00; chr 0x12; chr 0x34; chr 0x56] (fun _ => 0xAAAA)
      = Some mem'
    /\ mem' 0x3000 = 0x1234 /\ mem' 0x3001 = 0xAA56 /\ mem' 0x3002 = 0xAAAA.
Proof.
  eexists. split; [reflexivity |]. split; [| split]; reflexivity.
Qed.

Lemma ReadImageFile_completes
    (bo : byte_order) (file : list ascii) (mem : Z -> Z) :
  (2 <= List.length file)%nat ->
  exists mem', CPU.ReadImageFile bo file mem = Some mem'.
Proof.
  intros Hlen. destruct file as [| b0 [| b1 rest]]; cbn [List.length] in Hlen;
    try lia.
  unfold CPU.ReadImageFile. cbv zeta.
  destruct (fread_frame bo
              (Z.to_nat (wrap16 (MEMORY_MAX - Swap16 (word_of_bytes bo b0 b1))))
              rest mem (Swap16 (word_of_bytes bo b0 b1)))
    as [mem1 [k [m [E _]]]].
  rewrite E. eexists. reflexivity.
Qed.

Lemma ReadImageFile_cells
    (o : ascii * ascii) (ws : list (ascii * ascii)) (mem : Z -> Z) :
  be_word o <> 0 ->
  exists mem',
    CPU.ReadImageFile LittleEndian (image_file o ws) mem = Some mem'
    /\ forall a,
         mem' a = if covers o ws a then data_word ws (a - be_word o)
                  else mem a.
Proof.
  intros Ho. destruct o as [b0 b1].
  pose proof (be_word_range (b0, b1)) as Hr. unfold is_u16 in Hr.
  unfold covers. set (O := be_word (b0, b1)) in *.
  assert (Hmax : wrap16 (MEMORY_MAX - O) = 65536 - O).
  { unfold wrap16. change MEMORY_MAX with 65536. apply Z.mod_small. lia. }
  destruct (fread_words LittleEndian ws (Z.to_nat (65536 - O)) mem O)
    as [mem1 [Hread Hmem1]].
  set (k := Nat.min (Z.to_nat (65536 - O)) (List.length ws)) in *.
  assert (Hk : Z.of_nat k = Z.min (Z.of_nat (List.length ws)) (65536 - O))
    by (unfold k; lia).
  exists (CPU.swap_words k mem1 O). split.
  - unfold CPU.ReadImageFile, image_file. cbn [fst snd].
    rewrite Swap16_little_endian. fold O. rewrite Hmax, Hread. reflexivity.
  - intros a. rewrite swap_words_spec, Hmem1, Hk.
    destruct ((O <=? a) && (a <? O + Z.min (Z.of_nat (List.length ws)) (65536 - O)));
      [| reflexivity].
    rewrite Swap16_little_endian. unfold data_word.
    destruct (nth (Z.to_nat (a - O)) ws (zero, zero)); reflexivity.
Qed.

(** X25.  Images loaded in sequence on a little-endian host overlay:
    after loading a first and then a second image (origins other than
    0), a cell covered by the second image holds the second image's
    word, a cell covered only by the first holds the first image's word,
    and every other cell is unchanged. *)
Theorem images_overlay
    (o1 o2 : ascii * ascii) (ws1 ws2 : list (ascii * ascii))
    (mem : Z -> Z) :
  be_word o1 <> 0 -> be_word o2 <> 0 ->
  exists mem1 mem2,
    CPU.ReadImageFile LittleEndian (image_file o1 ws1) mem = Some mem1
    /\ CPU.ReadImageFile LittleEndian (image_file o2 ws2) mem1 = Some mem2
    /\ forall a,
         mem2 a =
         if covers o2 ws2 a then data_word ws2 (a - be_word o2)
         else if covers o1 ws1 a then data_word ws1 (a - be_word o1)
         else mem a.
Proof.
  intros H1 H2.
  destruct (ReadImageFile_cells o1 ws1 mem H1) as [mem1 [Hl1 Hc1]].
  destruct (ReadImageFile_cells o2 ws2 mem1 H2) as [mem2 [Hl2 Hc2]].
  exists mem1, mem2. split; [exact Hl1 |]. split; [exact Hl2 |].
  intros a. rewrite Hc2, Hc1. reflexivity.
Qed.

Lemma images_overlay_witness :
  exists mem1 mem2,
    CPU.ReadImageFile LittleEndian
      (image_file (chr 0x30, chr 0x00) [(chr 0x11, chr 0x11); (chr 0x22, chr 0x22)])
      (fun _ => 0) = Some mem1
    /\ CPU.ReadImageFile LittleEndian
      (image_file (chr 0x30, chr 0x01) [(chr 0x33, chr 0x33)]) mem1 = Some mem2
    /\ mem2 0x3000 = 0x1111 /\ mem2 0x3001 = 0x3333 /\ mem2 0x3002 = 0.
Proof.
  destruct (images_overlay (chr 0x30, chr 0x00) (chr 0x30, chr 0x01)
              [(chr 0x11, chr 0x11); (chr 0x22, chr 0x22)]
              [(chr 0x33, chr 0x33)] (fun _ => 0))
    as [mem1 [mem2 [Hl1 [Hl2 Hc]]]]; try (vm_compute; discriminate).
  exists mem1, mem2. split; [exact Hl1 |]. split; [exact Hl2 |].
  split; [| split]; rewrite Hc; reflexivity.
Defined.

(** ** Start-up *)

Lemma load_images_good (fs : FileSystem) (bo : byte_order) :
  forall (paths : list string) (files : list (list ascii))
         (more : list string) (s s1 : Machine),
    Forall2 (fun path file => fs path = Some file) paths files ->
    load_all bo files s = Some s1 ->
    load_images fs bo (paths ++ more) s = load_images fs bo more s1.
Proof.
  induction paths as [| path paths IH]; intros files more s s1 Hopen Hload.
  - inversion Hopen; subst. cbn [load_all] in Hload. injection Hload as <-.
    reflexivity.
  - inversion Hopen as [| ? file ? files' Hpath Hrest]; subst.
    cbn [load_all] in Hload.
    destruct (CPU.ReadImage bo file s) as [s0 |] eqn:E; [| discriminate Hload].
    cbn [app load_images]. unfold ReadImage_from. rewrite Hpath, E.
    cbn [Z.eqb]. apply (IH files' more s0 s1 Hrest Hload).
Qed.

Lemma load_all_frame (bo : byte_order) :
  forall (files : list (list ascii)) (s s1 : Machine),
    load_all bo files s = Some s1 ->
    registers s1 = registers s /\ running s1 = running s /\ os s1 = os s.
Proof.
  induction files as [| file files IH]; intros s s1 Hload.
  - cbn [load_all] in Hload. injection Hload as <-. auto.
  - cbn [load_all] in Hload.
    destruct (CPU.ReadImage bo file s) as [s0 |] eqn:E; [| discriminate Hload].
    destruct (IH s0 s1 Hload) as [Hr [Hn Ho]].
    unfold CPU.ReadImage in E.
    destruct (CPU.ReadImageFile bo file (memory s)); [| discriminate E].
    injection E as <-. auto.
Qed.

Lemma load_all_completes (bo : byte_order) :
  forall (files : list (list ascii)) (s : Machine),
    Forall (fun file => (2 <= List.length file)%nat) files ->
    exists s1, load_all bo files s = Some s1.
Proof.
  induction files as [| file files IH]; intros s Hlen.
  - exists s. reflexivity.
  - inversion Hlen as [| ? ? Hfile Hrest]; subst.
    destruct (ReadImageFile_completes bo file (memory s) Hfile) as [mem' E].
    cbn [load_all]. unfold CPU.ReadImage. rewrite E. apply IH. exact Hrest.
Qed.

(** X26.  Start-up, for image files that hold at least their origin
    word.  With no image path on the command line the program prints its
    usage line and exits with code 2 before touching the machine.
    Otherwise the images are loaded in the order of the command line,
    each load completing; at the first path that cannot be opened the
    program prints "failed to load image: " and the path and exits with
    code 1, the earlier images being loaded; when every path opens, the
    loading ends with all the images loaded.  The loads change the
    memory only: registers, run flag and console are then as at the
    start.  (What follows in the program, the signal handler and the
    console set-up, is outside [start_up].) *)
Theorem start_up_outcomes
    (fs : FileSystem) (bo : byte_order) (prog : string)
    (paths : list string) (files : list (list ascii)) (s : Machine) :
  Forall2 (fun path file => fs path = Some file) paths files ->
  Forall (fun file => (2 <= List.length file)%nat) files ->
  exists s1,
    load_all bo files s = Some s1
    /\ registers s1 = registers s /\ running s1 = running s
    /\ os s1 = os s
    /\ start_up fs bo [] s
       = Exited 2
           (set_os (mkHost (keyhits (os s)) (stdin (os s))
                      (stdout (os s)
                       ++ chars_out (list_ascii_of_string
                                       ("lc3 [image-file1] ..." ++ newline))))
                   s)
    /\ start_up fs bo [prog] s = start_up fs bo [] s
    /\ (forall bad more,
          fs bad = None ->
          start_up fs bo (prog :: paths ++ bad :: more) s
          = Exited 1
              (set_os (mkHost (keyhits (os s)) (stdin (os s))
                         (stdout (os s)
                          ++ chars_out (list_ascii_of_string
                                          ("failed to load image: "
                                           ++ bad ++ newline))))
                      s1))
    /\ (paths <> [] -> start_up fs bo (prog :: paths) s = Loaded s1).
Proof.
  intros Hopen Hlen.
  destruct (load_all_completes bo files s Hlen) as [s1 Hload].
  exists s1. split; [exact Hload |].
  destruct (load_all_frame bo files s s1 Hload) as [Hr [Hn Ho]].
  split; [exact Hr |]. split; [exact Hn |]. split; [exact Ho |].
  split; [| split; [| split]].
  - unfold start_up. cbn [List.length Z.of_nat Z.ltb Z.compare].
    unfold printf. rewrite put_chars_out. reflexivity.
  - reflexivity.
  - intros bad more Hbad. unfold start_up.
    replace (Z.of_nat (List.length (prog :: paths ++ bad :: more)) <? 2)
      with false.
    + cbn [tl]. rewrite (load_images_good fs bo paths files _ s s1 Hopen Hload).
      cbn [load_images]. unfold ReadImage_from. rewrite Hbad. cbn [Z.eqb].
      unfold printf. rewrite put_chars_out. rewrite Ho. reflexivity.
    + symmetry. apply Z.ltb_ge. cbn [List.length].
      rewrite length_app. cbn [List.length]. lia.
  - intros Hne. unfold start_up.
    replace (Z.of_nat (List.length (prog :: paths)) <? 2) with false.
    + cbn [tl]. rewrite <- (app_nil_r paths).
      rewrite (load_images_good fs bo paths files [] s s1 Hopen Hload).
      reflexivity.
    + symmetry. apply Z.ltb_ge. destruct paths; [contradiction |].
      cbn [List.length]. lia.
Qed.

Lemma start_up_outcomes_witness :
  let fs : FileSystem :=
    fun path => if String.eqb path "a.obj"
                then Some [chr 0x30; chr 0x00; chr 0x12; chr 0x34; chr 0x56]
                else None in
  let s := CPU.init (fun _ => 0) (fun _ => 0) (mkHost [] [] []) in
  exists s1 h,
    start_up fs LittleEndian ["lc3"; "a.obj"; "b.obj"]%string s
      = Exited 1 (set_os h s1)
    /\ memory s1 0x3000 = 0x1234
    /\ memory s1 0x3001 = 0x0056
    /\ stdout h
       = chars_out (list_ascii_of_string
                      ("failed to load image: b.obj" ++ newline)).
Proof.
  intros fs s.
  assert (Hopen : Forall2 (fun path file => fs path = Some file)
                    ["a.obj"%string]
                    [[chr 0x30; chr 0x00; chr 0x12; chr 0x34; chr 0x56]])
    by (repeat constructor).
  assert (Hlen : Forall (fun file : list ascii => (2 <= List.length file)%nat)
                   [[chr 0x30; chr 0x00; chr 0x12; chr 0x34; chr 0x56]])
    by (repeat constructor).
  destruct (start_up_outcomes fs LittleEndian "lc3" _ _ s Hopen Hlen)
    as [s1 [Hload [_ [_ [_ [_ [_ [Hbad _]]]]]]]].
  exists s1. eexists. split.
  - apply (Hbad "b.obj"%string []). reflexivity.
  - vm_compute in Hload. injection Hload as <-.
    split; [reflexivity |]. split; reflexivity.
Defined.
